(** * rtspSERVER: the relay orchestration core

    A shallow embedding of [src/services/StreamManager.ts],
    [src/services/WebSocketService.ts], the [createMapping] and
    [createOutputStream] schemas of [src/middleware/validation.ts], the
    routes of [src/routes/streams.routes.ts] that create and delete rows, and
    the tables of [schema.sql] that these read and write.

    Conventions of the embedding.
    - Identifiers, ports, grid dimensions and slot positions are PostgreSQL
      [INTEGER]s and are modelled as [Z].
    - The arithmetic of [buildFilterComplex] is done on JavaScript numbers,
      which are doubles.  They are modelled by [num]: an integer that is a
      double, an infinity, NaN, or a value the model does not read.  Every
      operation rounds as the double operation does ([roundToDouble],
      [nearestQuotient]); below 2^53 the results are those of integer
      arithmetic, which the lemmas state with that bound.  Negative zero
      prints as zero and is identified with it.
    - Every service method is [async].  A method is modelled as one atomic
      state transformer: the runs considered are those in which requests and
      process events are handled one after the other.
    - The database is taken to answer every query; the statements that can
      be refused are those that break a column type or a constraint of
      [schema.sql].  A table is the list of its rows in insertion order, and
      an [UPDATE] changes a row in place: the order in which PostgreSQL
      returns the rows of a [SELECT] without [ORDER BY] is not modelled.
    - [buildFFmpegProcess] reads [process.env] at line 145, inside the block
      in which line 173 declares [const process]: the read is in the
      temporal dead zone of that declaration and throws a [ReferenceError]
      on every call.  The statements after it, the command line, [spawn] and
      the three listeners, run in no execution and are not embedded.
    - The [Map] of the supervisor is the list of its entries in insertion
      order, since the port scan reads the position of a value in
      [values()]. *)

From Stdlib Require Import ZArith List String Ascii Bool Lia.
Import ListNotations.

Local Open Scope string_scope.
Local Open Scope Z_scope.

Local Set Warnings "-register-all".

(* ================================================================= *)
(** * JavaScript values *)

(** A JavaScript number, as far as the layout arithmetic meets one.  [Int z]
    is the double whose value is the integer [z]; [Unread] is the value of a
    text that [Number] reads and this model does not: a fraction, a signed
    or padded numeral, or NaN. *)
Inductive num : Type :=
| Int (z : Z)
| PosInf
| NegInf
| NaN
| Unread.

(** The double nearest to an integer, ties going to the even significand:
    up to 2^53 the integer itself, beyond it a multiple of the spacing of
    the doubles there, and an infinity from 2^1024 on. *)
Definition roundToDouble (z : Z) : num :=
  let a := Z.abs z in
  if a <? 2 ^ 53 then Int z
  else
    let e := Z.log2 a - 52 in
    let q := a / 2 ^ e in
    let r := a mod 2 ^ e in
    let q' := if (2 ^ e <? 2 * r) || ((2 * r =? 2 ^ e) && Z.odd q)
              then q + 1 else q in
    if 2 ^ 1024 <=? q' * 2 ^ e then (if 0 <? z then PosInf else NegInf)
    else Int (Z.sgn z * (q' * 2 ^ e)).

(** The double nearest to [p / q] for integers [p, q > 0], as a significand
    [m] of at most 53 bits and an exponent [e]: the double is [m * 2^e]. *)
Definition nearestQuotient (p q : Z) : Z * Z :=
  let numerator (e : Z) := p * 2 ^ Z.max 0 (- e) in
  let denominator (e : Z) := q * 2 ^ Z.max 0 e in
  let e0 := Z.log2 p - Z.log2 q - 52 in
  let e1 := if numerator e0 / denominator e0 <? 2 ^ 52 then e0 - 1 else e0 in
  let e := Z.max e1 (-1074) in
  let m := numerator e / denominator e in
  let r := numerator e mod denominator e in
  (if (denominator e <? 2 * r) || ((2 * r =? denominator e) && Z.odd m)
   then m + 1 else m,
   e).

(** [Math.floor(a / b)] for a number [a] and an integer [b]: the quotient is
    rounded to a double, then floored. *)
Definition floorDiv (a : num) (b : Z) : num :=
  match a with
  | Int z =>
      if b =? 0 then
        (if 0 <? z then PosInf else if z <? 0 then NegInf else NaN)
      else if z =? 0 then Int 0
      else
        let '(m, e) := nearestQuotient (Z.abs z) (Z.abs b) in
        let n := m * 2 ^ Z.max 0 e in
        let d := 2 ^ Z.max 0 (- e) in
        if 0 <? Z.sgn z * Z.sgn b then Int (n / d)
        else Int (- ((n + d - 1) / d))
  | PosInf => if b <? 0 then NegInf else PosInf
  | NegInf => if b <? 0 then PosInf else NegInf
  | NaN => NaN
  | Unread => Unread
  end.

(** [a % b] on integers: the remainder has the sign of the dividend and is
    exact, and a zero divisor gives NaN. *)
Definition jsRem (a b : Z) : num :=
  if b =? 0 then NaN else Int (Z.rem a b).

(** [a * b]: the product is rounded to a double. *)
Definition jsMul (a b : num) : num :=
  let signed (positive : bool) (z : Z) : num :=
    if z =? 0 then NaN
    else if Bool.eqb positive (0 <? z) then PosInf else NegInf in
  match a, b with
  | Unread, _ | _, Unread => Unread
  | NaN, _ | _, NaN => NaN
  | Int x, Int y => roundToDouble (x * y)
  | Int x, PosInf | PosInf, Int x => signed true x
  | Int x, NegInf | NegInf, Int x => signed false x
  | PosInf, PosInf | NegInf, NegInf => PosInf
  | PosInf, NegInf | NegInf, PosInf => NegInf
  end.

(** [\d]. *)
Definition isDigit (c : ascii) : bool :=
  (48 <=? nat_of_ascii c)%nat && (nat_of_ascii c <=? 57)%nat.

Definition digitValue (c : ascii) : Z := Z.of_nat (nat_of_ascii c) - 48.

Definition digitChar (d : Z) : ascii := ascii_of_nat (48 + Z.to_nat d).

(** The value of a run of decimal digits, read after [acc]; nothing when a
    character is not a digit. *)
Fixpoint readDigits (acc : Z) (s : string) : option Z :=
  match s with
  | EmptyString => Some acc
  | String c rest =>
      if isDigit c then readDigits (acc * 10 + digitValue c) rest else None
  end.

(** The digits of [n >= 0], written in front of [rest]. *)
Fixpoint printDigits (fuel : nat) (n : Z) (rest : string) : string :=
  match fuel with
  | O => rest
  | S fuel' =>
      let rest' := String (digitChar (n mod 10)) rest in
      if n <? 10 then rest' else printDigits fuel' (n / 10) rest'
  end.

(** Plain decimal notation of an integer. *)
Definition decimal (z : Z) : string :=
  let digits (n : Z) := printDigits (S (Z.to_nat (Z.log2 n))) n EmptyString in
  if z <? 0 then String "-" (digits (- z)) else digits z.

(** The shortest decimal significand that is read back as the double [n],
    tried with [k], [k + 1], ... digits, and the power of ten it is to be
    multiplied with; of two candidates of one length the nearer is taken. *)
Fixpoint shortest (fuel : nat) (k : Z) (n digits : Z) : Z * Z :=
  let p := 10 ^ (digits - k) in
  let lo := n / p * p in
  let hi := lo + p in
  let okLo := match roundToDouble lo with Int v => v =? n | _ => false end in
  let okHi := match roundToDouble hi with Int v => v =? n | _ => false end in
  let pick :=
    if okLo && okHi then
      (if n - lo <? hi - n then Some lo
       else if hi - n <? n - lo then Some hi
       else if Z.even (lo / p) then Some lo else Some hi)
    else if okLo then Some lo
    else if okHi then Some hi
    else None in
  match pick, fuel with
  | Some c, _ => (c / p, digits - k)
  | None, S fuel' => shortest fuel' (k + 1) n digits
  | None, O => (n, 0)
  end.

Fixpoint stripZeros (fuel : nat) (s : Z) : Z :=
  match fuel with
  | O => s
  | S fuel' =>
      if (s mod 10 =? 0) && (0 <? s) then stripZeros fuel' (s / 10) else s
  end.

(** Exponent notation of a double [n >= 10^21]: [d.ddde+xx]. *)
Definition exponential (n : Z) : string :=
  let digits := Z.of_nat (String.length (decimal n)) in
  let '(s, shift) := shortest 17 1 n digits in
  let exponent := shift + Z.of_nat (String.length (decimal s)) - 1 in
  match decimal (stripZeros 17 s) with
  | String c EmptyString => String c ("e+" ++ decimal exponent)
  | String c rest => String c ("." ++ rest ++ "e+" ++ decimal exponent)
  | EmptyString => EmptyString
  end.

(** [`${z}`] and [z.toString()] for a number whose value is the integer [z]:
    plain decimal notation below 10^21 and exponent notation from there
    on. *)
Definition intToString (z : Z) : string :=
  match roundToDouble z with
  | Int d =>
      if Z.abs d <? 10 ^ 21 then decimal d
      else if d <? 0 then String "-" (exponential (- d)) else exponential d
  | PosInf => "Infinity"
  | NegInf => "-Infinity"
  | _ => "NaN"
  end.

(** [`${n}`]; there is no text for a value the model does not read. *)
Definition numToString (n : num) : option string :=
  match n with
  | Int z => Some (intToString z)
  | PosInf => Some "Infinity"
  | NegInf => Some "-Infinity"
  | NaN => Some "NaN"
  | Unread => None
  end.

(** [Number(s)]: a run of decimal digits is read as the double nearest to
    its value (the empty run is 0).  Any other text is left unread: [Number]
    gives some of it a value, as it does for " 1920 ", "1e3" or "1920.5",
    and NaN for the rest. *)
Definition Number (s : string) : num :=
  match readDigits 0 s with
  | Some v => roundToDouble v
  | None => Unread
  end.

(** [s.split(sep)] for a one character separator. *)
Fixpoint split (sep : ascii) (s : string) : list string :=
  match s with
  | EmptyString => [EmptyString]
  | String c rest =>
      let parts := split sep rest in
      if Ascii.eqb c sep then EmptyString :: parts
      else match parts with
           | p :: ps => String c p :: ps
           | [] => [String c EmptyString]
           end
  end.

(** [parts.join(sep)]. *)
Fixpoint join (sep : string) (parts : list string) : string :=
  match parts with
  | [] => EmptyString
  | [p] => p
  | p :: ps => p ++ sep ++ join sep ps
  end.

(** [xs.map((x, index) => f(index, x))]. *)
Fixpoint mapiFrom {A B : Type} (index : nat) (f : nat -> A -> B) (xs : list A)
  : list B :=
  match xs with
  | [] => []
  | x :: rest => f index x :: mapiFrom (S index) f rest
  end.

Definition mapi {A B : Type} (f : nat -> A -> B) (xs : list A) : list B :=
  mapiFrom 0 f xs.

(** The list of the values when each of them is there. *)
Fixpoint allOf {A : Type} (xs : list (option A)) : option (list A) :=
  match xs with
  | [] => Some []
  | Some a :: rest =>
      match allOf rest with
      | Some others => Some (a :: others)
      | None => None
      end
  | None :: _ => None
  end.

(** The outcome of a call that may throw [new Error(message)]. *)
Inductive result (A : Type) : Type :=
| Ok (value : A)
| Throw (message : string).

Arguments Ok {A} value.
Arguments Throw {A} message.

(* ================================================================= *)
(** * The pipeline description: [buildFilterComplex] *)

Record StreamMapping : Type := {
  inputStreamId : Z;
  inputUrl : string;
  slotPosition : Z;
  gridRows : Z;
  gridCols : Z
}.

Record OutputStreamConfig : Type := {
  id : Z;
  name : string;
  outputPort : Z;
  resolution : string;
  framerate : Z;
  bitrate : string;
  mappings : list StreamMapping
}.

(** [const [width, height] = resolution.split('x').map(Number)]; a missing
    component is [undefined], which every later operation turns into NaN. *)
Definition canvasSize (resolution : string) : num * num :=
  let parts := map Number (split "x"%char resolution) in
  (nth 0 parts NaN, nth 1 parts NaN).

(** The body of the second [forEach]: where the cell of one mapping goes. *)
Definition layoutPosition (gridCols : Z) (cellWidth cellHeight : num)
    (mapping : StreamMapping) : num * num :=
  let row := floorDiv (Int (slotPosition mapping)) gridCols in
  let col := jsRem (slotPosition mapping) gridCols in
  let x := jsMul col cellWidth in
  let y := jsMul row cellHeight in
  (x, y).

(** [`${x}_${y}`]. *)
Definition positionText (x y : num) : option string :=
  match numToString x, numToString y with
  | Some a, Some b => Some (a ++ "_" ++ b)
  | _, _ => None
  end.

(** The result is the filter text, or the error of a configuration without
    mappings; there is no result where the text would hold a number that
    the model does not read. *)
Definition buildFilterComplex (config : OutputStreamConfig)
  : option (result string) :=
  let '(width, height) := canvasSize (resolution config) in
  match mappings config with
  | [] => Some (Throw "No input streams provided")
  | first :: _ =>
      let cellWidth := floorDiv width (gridCols first) in
      let cellHeight := floorDiv height (gridRows first) in
      match numToString cellWidth, numToString cellHeight with
      | Some cellWidthText, Some cellHeightText =>
          let scales :=
            mapi (fun index _ =>
                    "[" ++ intToString (Z.of_nat index) ++ ":v]scale="
                        ++ cellWidthText ++ ":" ++ cellHeightText
                        ++ ",setsar=1[v" ++ intToString (Z.of_nat index)
                        ++ "];")
                 (mappings config) in
          let filter := String.concat EmptyString scales in
          match allOf
                  (map (fun mapping =>
                          let '(x, y) :=
                            layoutPosition (gridCols first) cellWidth
                                           cellHeight mapping in
                          positionText x y)
                       (mappings config)) with
          | Some layoutPositions =>
              let inputLabels :=
                join EmptyString
                     (mapi (fun i _ => "[v" ++ intToString (Z.of_nat i) ++ "]")
                           (mappings config)) in
              Some
                (Ok (filter ++ inputLabels ++ "xstack=inputs="
                            ++ intToString
                                 (Z.of_nat (List.length (mappings config)))
                            ++ ":layout=" ++ join "|" layoutPositions
                            ++ "[out]"))
          | None => None
          end
      | _, _ => None
      end
  end.

(** The geometry that [buildFilterComplex] computes on its way to the filter
    text, kept as data: the rectangle of each mapping, in mapping order.  The
    size is the [scale=] of the mapping's input, the origin its entry in
    [layout=]. *)
Record Rect : Type := { x : num; y : num; w : num; h : num }.

Definition layoutRects (config : OutputStreamConfig) : list Rect :=
  let '(width, height) := canvasSize (resolution config) in
  match mappings config with
  | [] => []
  | first :: _ =>
      let cellWidth := floorDiv width (gridCols first) in
      let cellHeight := floorDiv height (gridRows first) in
      map (fun mapping =>
             let '(x, y) :=
               layoutPosition (gridCols first) cellWidth cellHeight mapping in
             {| x := x; y := y; w := cellWidth; h := cellHeight |})
          (mappings config)
  end.

(** The two numbers of [scale=${w}:${h}]. *)
Definition sizeText (r : Rect) : option (string * string) :=
  match numToString (w r), numToString (h r) with
  | Some a, Some b => Some (a, b)
  | _, _ => None
  end.

(** The filter text of a list of rectangles: one scale stage per rectangle,
    then the [xstack] stage. *)
Definition renderFilter (rects : list Rect) : option string :=
  match allOf (map sizeText rects) with
  | Some sizes =>
      match allOf (map (fun r => positionText (x r) (y r)) rects) with
      | Some origins =>
          Some
            (String.concat EmptyString
               (mapi (fun index size =>
                        "[" ++ intToString (Z.of_nat index) ++ ":v]scale="
                            ++ fst size ++ ":" ++ snd size
                            ++ ",setsar=1[v" ++ intToString (Z.of_nat index)
                            ++ "];")
                     sizes)
             ++ join EmptyString
                  (mapi (fun i _ => "[v" ++ intToString (Z.of_nat i) ++ "]")
                        rects)
             ++ "xstack=inputs=" ++ intToString (Z.of_nat (List.length rects))
             ++ ":layout=" ++ join "|" origins ++ "[out]")
      | None => None
      end
  | None => None
  end.

(* ================================================================= *)
(** * Request validation: [schemas.createMapping] *)

(** The body of [POST /mappings]; [None] is a missing field, and a field
    that is there is taken to be an integer.  Each field is
    [Joi.number().integer().required()], and [slotPosition] has [min(0)]:
    the schema knows nothing of the grid the slot belongs to. *)
Record CreateMappingBody : Type := {
  body_outputStreamId : option Z;
  body_inputStreamId : option Z;
  body_slotPosition : option Z
}.

(** One entry of [error.details]: the path of the field and the Joi rule it
    broke. *)
Record ValidationError : Type := { field : string; rule : string }.

(** [Number.isSafeInteger]: [Joi.number()] refuses a number beyond
    2^53 - 1 on either side with [number.unsafe], before any other rule. *)
Definition safeInteger (z : Z) : bool :=
  (- (2 ^ 53 - 1) <=? z) && (z <=? 2 ^ 53 - 1).

(** [Joi.number().integer().required()]. *)
Definition required (path : string) (value : option Z) : list ValidationError :=
  match value with
  | Some z =>
      if safeInteger z then []
      else [{| field := path; rule := "number.unsafe" |}]
  | None => [{| field := path; rule := "any.required" |}]
  end.

(** [schema.validate(req.body, { abortEarly: false })] for [createMapping]. *)
Definition validateCreateMapping (body : CreateMappingBody)
  : list ValidationError :=
  required "outputStreamId" (body_outputStreamId body)
  ++ required "inputStreamId" (body_inputStreamId body)
  ++ match body_slotPosition body with
     | Some slot =>
         if negb (safeInteger slot)
         then [{| field := "slotPosition"; rule := "number.unsafe" |}]
         else if slot <? 0
              then [{| field := "slotPosition"; rule := "number.min" |}]
              else []
     | None => [{| field := "slotPosition"; rule := "any.required" |}]
     end.

(** The middleware answers 400 when there is an error and calls [next()]
    otherwise. *)
Definition accepted (body : CreateMappingBody) : bool :=
  match validateCreateMapping body with
  | [] => true
  | _ :: _ => false
  end.

(* ================================================================= *)
(** * The persistence collaborator: the tables of [schema.sql] *)

Inductive OutputStatus : Type := running | stopped | error.

Inductive InputStatus : Type := connected | disconnected | input_error.

Record LayoutTemplateRow : Type := {
  lt_id : Z;
  lt_name : string;
  lt_grid_rows : Z;
  lt_grid_cols : Z
}.

Record OutputStreamRow : Type := {
  os_id : Z;
  os_name : string;
  os_layout_template_id : option Z;
  os_output_port : option Z;
  os_output_url : option string;
  os_resolution : string;
  os_framerate : Z;
  os_bitrate : string;
  os_status : OutputStatus;
  os_last_error : option string
}.

Record InputStreamRow : Type := {
  ist_id : Z;
  ist_name : string;
  ist_rtsp_url : string;
  ist_username : option string;
  ist_password : option string;
  ist_status : InputStatus;
  ist_last_error : option string
}.

Record StreamMappingRow : Type := {
  sm_output_stream_id : Z;
  sm_input_stream_id : Z;
  sm_slot_position : Z
}.

Record Database : Type := {
  layout_templates : list LayoutTemplateRow;
  output_streams : list OutputStreamRow;
  input_streams : list InputStreamRow;
  stream_mappings : list StreamMappingRow
}.

(** [SELECT os.*, lt.grid_rows, lt.grid_cols FROM output_streams os
     JOIN layout_templates lt ON os.layout_template_id = lt.id
     WHERE os.id = $1]. *)
Definition selectOutputStream (d : Database) (outputStreamId : Z)
  : list (OutputStreamRow * LayoutTemplateRow) :=
  flat_map
    (fun os =>
       if os_id os =? outputStreamId then
         match os_layout_template_id os with
         | Some template =>
             map (fun lt => (os, lt))
                 (filter (fun lt => lt_id lt =? template) (layout_templates d))
         | None => []
         end
       else [])
    (output_streams d).

(** [ORDER BY sm.slot_position]: insertion into a list already in order. *)
Fixpoint insertBySlot (row : StreamMappingRow * InputStreamRow)
    (rows : list (StreamMappingRow * InputStreamRow))
  : list (StreamMappingRow * InputStreamRow) :=
  match rows with
  | [] => [row]
  | r :: rest =>
      if sm_slot_position (fst row) <? sm_slot_position (fst r)
      then row :: r :: rest
      else r :: insertBySlot row rest
  end.

Definition orderBySlot (rows : list (StreamMappingRow * InputStreamRow))
  : list (StreamMappingRow * InputStreamRow) :=
  fold_left (fun sorted row => insertBySlot row sorted) rows [].

(** [SELECT sm.input_stream_id, sm.slot_position, ist.rtsp_url, ist.username,
     ist.password FROM stream_mappings sm
     JOIN input_streams ist ON sm.input_stream_id = ist.id
     WHERE sm.output_stream_id = $1 ORDER BY sm.slot_position]. *)
Definition selectMappings (d : Database) (outputStreamId : Z)
  : list (StreamMappingRow * InputStreamRow) :=
  orderBySlot
    (flat_map
       (fun sm =>
          if sm_output_stream_id sm =? outputStreamId then
            map (fun ist => (sm, ist))
                (filter (fun ist => ist_id ist =? sm_input_stream_id sm)
                        (input_streams d))
          else [])
       (stream_mappings d)).

Definition withOutputStreams (d : Database) (rows : list OutputStreamRow)
  : Database :=
  {| layout_templates := layout_templates d;
     output_streams := rows;
     input_streams := input_streams d;
     stream_mappings := stream_mappings d |}.

(** [UPDATE output_streams SET ... WHERE id = $n]: [change] is applied to the
    rows with that id.  The row stays where it is in the list: the list
    tells which rows there are, not where PostgreSQL would hand them out in
    a [SELECT] without [ORDER BY]. *)
Definition updateOutputStream (d : Database) (outputStreamId : Z)
    (change : OutputStreamRow -> OutputStreamRow) : Database :=
  withOutputStreams d
    (map (fun os => if os_id os =? outputStreamId then change os else os)
         (output_streams d)).

Definition setRunning (port : Z) (url : string) (os : OutputStreamRow)
  : OutputStreamRow :=
  {| os_id := os_id os; os_name := os_name os;
     os_layout_template_id := os_layout_template_id os;
     os_output_port := Some port; os_output_url := Some url;
     os_resolution := os_resolution os; os_framerate := os_framerate os;
     os_bitrate := os_bitrate os;
     os_status := running; os_last_error := os_last_error os |}.

Definition setError (message : string) (os : OutputStreamRow)
  : OutputStreamRow :=
  {| os_id := os_id os; os_name := os_name os;
     os_layout_template_id := os_layout_template_id os;
     os_output_port := os_output_port os; os_output_url := os_output_url os;
     os_resolution := os_resolution os; os_framerate := os_framerate os;
     os_bitrate := os_bitrate os;
     os_status := error; os_last_error := Some message |}.

Definition setStopped (os : OutputStreamRow) : OutputStreamRow :=
  {| os_id := os_id os; os_name := os_name os;
     os_layout_template_id := os_layout_template_id os;
     os_output_port := os_output_port os; os_output_url := os_output_url os;
     os_resolution := os_resolution os; os_framerate := os_framerate os;
     os_bitrate := os_bitrate os;
     os_status := stopped; os_last_error := os_last_error os |}.

(** [output_port INTEGER UNIQUE]: a port is the port of at most one job. *)
Definition PortsUnique (d : Database) : Prop :=
  forall (os1 os2 : OutputStreamRow) (p : Z),
    In os1 (output_streams d) -> In os2 (output_streams d) ->
    os_output_port os1 = Some p -> os_output_port os2 = Some p ->
    os_id os1 = os_id os2.

(** The text PostgreSQL gives the error of an [UPDATE] that would leave two
    rows with one [output_port] ([output_port INTEGER UNIQUE]). *)
Definition uniqueViolation : string :=
  "duplicate key value violates unique constraint "
  ++ String "034"%char ("output_streams_output_port_key"
                          ++ String "034"%char EmptyString).

(** Whether giving [port] to the rows with id [outputStreamId] breaks the
    constraint: there is such a row, and a row with another id holds [port]. *)
Definition portTaken (d : Database) (outputStreamId port : Z) : bool :=
  existsb (fun os => os_id os =? outputStreamId) (output_streams d)
  && existsb (fun os =>
                negb (os_id os =? outputStreamId)
                && match os_output_port os with
                   | Some held => held =? port
                   | None => false
                   end)
             (output_streams d).


(** What an [INTEGER] column can hold. *)
Definition int4 (z : Z) : bool := (- 2 ^ 31 <=? z) && (z <? 2 ^ 31).

(** [INSERT INTO stream_mappings (output_stream_id, input_stream_id,
     slot_position) VALUES ($1, $2, $3)]: the table afterwards, or nothing
    when the statement is refused.  It is refused for a value outside
    [INTEGER], for an id that no row of the referenced table carries, and
    for a slot that the output stream already has
    ([UNIQUE(output_stream_id, slot_position)]).  The route runs after the
    validation, so the three values are there. *)
Definition insertMapping (d : Database) (body : CreateMappingBody)
  : option Database :=
  match body_outputStreamId body, body_inputStreamId body,
        body_slotPosition body with
  | Some output, Some input, Some slot =>
      if int4 output && int4 input && int4 slot
         && existsb (fun os => os_id os =? output) (output_streams d)
         && existsb (fun ist => ist_id ist =? input) (input_streams d)
         && negb (existsb (fun sm =>
                             (sm_output_stream_id sm =? output)
                             && (sm_slot_position sm =? slot))
                          (stream_mappings d))
      then
        Some {| layout_templates := layout_templates d;
                output_streams := output_streams d;
                input_streams := input_streams d;
                stream_mappings :=
                  stream_mappings d
                  ++ [{| sm_output_stream_id := output;
                         sm_input_stream_id := input;
                         sm_slot_position := slot |}] |}
      else None
  | _, _, _ => None
  end.

(* ================================================================= *)
(** * The observers: [WebSocketService] *)

(** What is handed to [JSON.stringify] before [client.send]. *)
Inductive Json : Type :=
| JNull
| JNumber (z : Z)
| JString (s : string)
| JArray (items : list Json)
| JObject (fields : list (string * Json)).

Inductive ReadyState : Type := CONNECTING | OPEN | CLOSING | CLOSED.

(** A member of [clients]; [sent] is what [send] was called with, oldest
    first. *)
Record Client : Type := {
  userId : Z;
  userRole : string;
  readyState : ReadyState;
  sent : list Json
}.

Definition isOpen (c : Client) : bool :=
  match readyState c with
  | OPEN => true
  | _ => false
  end.

Definition send (message : Json) (c : Client) : Client :=
  {| userId := userId c; userRole := userRole c; readyState := readyState c;
     sent := sent c ++ [message] |}.

Definition nullable (value : option string) : Json :=
  match value with
  | Some s => JString s
  | None => JNull
  end.

Definition outputStatusText (s : OutputStatus) : string :=
  match s with
  | running => "running"
  | stopped => "stopped"
  | error => "error"
  end.

Definition inputStatusText (s : InputStatus) : string :=
  match s with
  | connected => "connected"
  | disconnected => "disconnected"
  | input_error => "error"
  end.

(** A row of [SELECT id, name, status, last_error FROM input_streams]. *)
Definition inputRow (ist : InputStreamRow) : Json :=
  JObject [("id", JNumber (ist_id ist)); ("name", JString (ist_name ist));
           ("status", JString (inputStatusText (ist_status ist)));
           ("last_error", nullable (ist_last_error ist))].

(** A row of [SELECT id, name, status, last_error, output_url FROM
    output_streams]. *)
Definition outputRow (os : OutputStreamRow) : Json :=
  JObject [("id", JNumber (os_id os)); ("name", JString (os_name os));
           ("status", JString (outputStatusText (os_status os)));
           ("last_error", nullable (os_last_error os));
           ("output_url", nullable (os_output_url os))].

(** The message of one monitoring round; [now] is
    [new Date().toISOString()]. *)
Definition statusMessage (d : Database) (now : string) : Json :=
  JObject
    [("type", JString "stream_status");
     ("data",
      JObject [("inputStreams", JArray (map inputRow (input_streams d)));
               ("outputStreams", JArray (map outputRow (output_streams d)));
               ("timestamp", JString now)])].

(** The message [notifyStreamEvent] builds; [data] is the caller's. *)
Definition eventMessage (eventType streamType : string) (streamId : Z)
    (data : Json) (now : string) : Json :=
  JObject [("type", JString "stream_event"); ("eventType", JString eventType);
           ("streamType", JString streamType); ("streamId", JNumber streamId);
           ("data", data); ("timestamp", JString now)].

(** The value of a field of an object. *)
Fixpoint lookupField (key : string) (fields : list (string * Json))
  : option Json :=
  match fields with
  | [] => None
  | (k, v) :: rest => if String.eqb k key then Some v else lookupField key rest
  end.

Definition isArray (j : option Json) : bool :=
  match j with
  | Some (JArray _) => true
  | _ => false
  end.

(** The snapshot shape of the specification:
    [{type: "snapshot", inputs: [...], outputs: [...], timestamp}]. *)
Definition snapshotShaped (message : Json) : bool :=
  match message with
  | JObject fields =>
      match lookupField "type" fields, lookupField "timestamp" fields with
      | Some (JString t), Some _ =>
          String.eqb t "snapshot"
          && isArray (lookupField "inputs" fields)
          && isArray (lookupField "outputs" fields)
      | _, _ => false
      end
  | _ => false
  end.



(* ================================================================= *)
(** * The supervisor: [StreamManager] *)

(** A [ChildProcess] handle: what [spawn] was called with. *)
Record ChildProcess : Type := {
  pid : nat;
  spawnfile : string;
  spawnargs : list string
}.

(** Everything the two services can see or change.
    - [activeStreams]: the [Map] of the supervisor, in insertion order;
    - [basePort]: set once by the constructor from [RTSP_OUTPUT_BASE_PORT];
    - [spawned]: every process [spawn] has returned, oldest first; the pid of
      a process is its position;
    - [signals]: every [kill], oldest first;
    - [closed]: the pids of the processes that have exited;
    - [clients]: the [Set] of the observer service, in insertion order. *)
Record World : Type := {
  activeStreams : list (Z * ChildProcess);
  basePort : Z;
  database : Database;
  spawned : list ChildProcess;
  signals : list (nat * string);
  closed : list nat;
  clients : list Client
}.

Definition withActiveStreams (w : World) (m : list (Z * ChildProcess)) : World :=
  {| activeStreams := m; basePort := basePort w;
     database := database w; spawned := spawned w; signals := signals w;
     closed := closed w; clients := clients w |}.

Definition withDatabase (w : World) (d : Database) : World :=
  {| activeStreams := activeStreams w; basePort := basePort w;
     database := d; spawned := spawned w;
     signals := signals w; closed := closed w; clients := clients w |}.

Definition withSignals (w : World) (s : list (nat * string)) : World :=
  {| activeStreams := activeStreams w; basePort := basePort w;
     database := database w; spawned := spawned w;
     signals := s; closed := closed w; clients := clients w |}.

Definition withClosed (w : World) (c : list nat) : World :=
  {| activeStreams := activeStreams w; basePort := basePort w;
     database := database w; spawned := spawned w;
     signals := signals w; closed := c; clients := clients w |}.

Definition withClients (w : World) (cs : list Client) : World :=
  {| activeStreams := activeStreams w; basePort := basePort w;
     database := database w; spawned := spawned w;
     signals := signals w; closed := closed w; clients := cs |}.

(** ** The JavaScript [Map] *)

Fixpoint mapGet {V : Type} (m : list (Z * V)) (key : Z) : option V :=
  match m with
  | [] => None
  | (k, v) :: rest => if k =? key then Some v else mapGet rest key
  end.

Definition mapHas {V : Type} (m : list (Z * V)) (key : Z) : bool :=
  match mapGet m key with
  | Some _ => true
  | None => false
  end.

(** [set] keeps the place of a key that is present and appends a new one. *)
Fixpoint mapSet {V : Type} (m : list (Z * V)) (key : Z) (value : V)
  : list (Z * V) :=
  match m with
  | [] => [(key, value)]
  | (k, v) :: rest =>
      if k =? key then (k, value) :: rest else (k, v) :: mapSet rest key value
  end.

Definition mapDelete {V : Type} (m : list (Z * V)) (key : Z) : list (Z * V) :=
  filter (fun entry => negb (fst entry =? key)) m.

Definition mapKeys {V : Type} (m : list (Z * V)) : list Z := map fst m.

Definition mapValues {V : Type} (m : list (Z * V)) : list V := map snd m.

(** ** Methods: state transformers that may throw *)

(** A method body: it ends by returning or by throwing, and either way
    leaves the world with the changes made so far. *)
Definition M (A : Type) : Type := World -> result A * World.

Definition ret {A : Type} (a : A) : M A := fun w => (Ok a, w).

Definition throw {A : Type} (message : string) : M A :=
  fun w => (Throw message, w).

Definition bind {A B : Type} (m : M A) (k : A -> M B) : M B :=
  fun w =>
    match m w with
    | (Ok a, w') => k a w'
    | (Throw message, w') => (Throw message, w')
    end.

(** [try { body } catch (error) { handler(error.message) }]. *)
Definition tryCatch {A : Type} (body : M A) (handler : string -> M A) : M A :=
  fun w =>
    match body w with
    | (Ok a, w') => (Ok a, w')
    | (Throw message, w') => handler message w'
    end.

Definition get : M World := fun w => (Ok w, w).

Definition modify (f : World -> World) : M unit := fun w => (Ok tt, f w).

Definition lift {A : Type} (r : result A) : M A := fun w => (r, w).

Declare Scope method_scope.
Delimit Scope method_scope with method.
Notation "x <- m ;; k" := (bind m (fun x => k))
  (at level 61, m at next level, right associativity) : method_scope.
Notation "m ;; k" := (bind m (fun _ => k))
  (at level 61, right associativity) : method_scope.

Section Services.

Local Open Scope method_scope.

(** [new URL(baseUrl)] with [username] and [password] assigned, then
    [toString()]: the platform's URL class, which throws on text that is not
    a URL. *)
Variable withCredentials : string -> string -> string -> result string.

(** [!value] for a nullable text column: [null] and the empty text. *)
Definition falsy (value : option string) : bool :=
  match value with
  | None => true
  | Some s => String.eqb s EmptyString
  end.

Definition text (value : option string) : string :=
  match value with
  | Some s => s
  | None => EmptyString
  end.

Definition buildRtspUrl (baseUrl : string) (username password : option string)
  : result string :=
  if falsy username || falsy password then Ok baseUrl
  else withCredentials baseUrl (text username) (text password).

(** ** [getNextAvailablePort] *)

(** [Array.from(this.activeStreams.values()).map((_, id) => this.basePort + id)]:
    the second argument of the callback is the position in the array. *)
Definition usedPorts (w : World) : list Z :=
  mapi (fun id _ => basePort w + Z.of_nat id) (mapValues (activeStreams w)).

(** [usedPorts.includes(port)]. *)
Definition includes (ports : list Z) (port : Z) : bool :=
  existsb (fun used => used =? port) ports.

(** The ports the loop tries, in the order it tries them. *)
Definition candidatePorts (w : World) : list Z :=
  map (fun i => basePort w + Z.of_nat i) (seq 0 1000).

Definition getNextAvailablePort (w : World) : result Z :=
  match find (fun port => negb (includes (usedPorts w) port))
             (candidatePorts w) with
  | Some port => Ok port
  | None => Throw "No available ports for output stream"
  end.

(** ** [stopOutputStream] *)

Definition kill (p : ChildProcess) (signal : string) : M unit :=
  modify (fun w => withSignals w (signals w ++ [(pid p, signal)])).

Definition stopOutputStream (outputStreamId : Z) : M unit :=
  w <- get ;;
  match mapGet (activeStreams w) outputStreamId with
  | Some process =>
      kill process "SIGTERM" ;;
      modify (fun w =>
                withActiveStreams w
                  (mapDelete (activeStreams w) outputStreamId)) ;;
      modify (fun w =>
                withDatabase w
                  (updateOutputStream (database w) outputStreamId setStopped))
  | None => ret tt
  end.

(** [Promise.all] over the keys of the map at the time of the call. *)
Definition stopAllStreams : M unit :=
  w <- get ;;
  fold_right (fun id rest => stopOutputStream id ;; rest) (ret tt)
             (mapKeys (activeStreams w)).

Definition getActiveStreams (w : World) : list Z := mapKeys (activeStreams w).

(** ** [buildFFmpegProcess] *)

(** The message of the [ReferenceError] that a read of a [const] or [let]
    binding gives before its declaration has run. *)
Definition accessBeforeInitialization : string :=
  "Cannot access 'process' before initialization".

(** The first statement, [const ffmpegPath = process.env.FFMPEG_PATH ||
    'ffmpeg'], reads [process]; in this block [process] is the [const] of
    line 173, which is not initialised yet.  The call ends there, with the
    world as it found it. *)
Definition buildFFmpegProcess (config : OutputStreamConfig) : M ChildProcess :=
  throw accessBeforeInitialization.

(** ** [startOutputStream] *)

(** [`rtsp://localhost:${config.outputPort}/${config.name}`]. *)
Definition rtspAddress (config : OutputStreamConfig) : string :=
  "rtsp://localhost:" ++ intToString (outputPort config) ++ "/" ++ name config.

(** [stream.output_port || this.getNextAvailablePort()]: the right operand is
    evaluated only when the left one is [null] or [0]. *)
Definition resolvePort (stream : OutputStreamRow) (w : World) : result Z :=
  match os_output_port stream with
  | Some port => if port =? 0 then getNextAvailablePort w else Ok port
  | None => getNextAvailablePort w
  end.

(** [mappingsResult.rows.map(row => ({ ... }))]; the first [buildRtspUrl]
    that throws ends the whole [map]. *)
Fixpoint buildMappings (stream : OutputStreamRow * LayoutTemplateRow)
    (rows : list (StreamMappingRow * InputStreamRow))
  : result (list StreamMapping) :=
  match rows with
  | [] => Ok []
  | (sm, ist) :: rest =>
      match buildRtspUrl (ist_rtsp_url ist) (ist_username ist)
                         (ist_password ist) with
      | Throw message => Throw message
      | Ok url =>
          match buildMappings stream rest with
          | Throw message => Throw message
          | Ok others =>
              Ok ({| inputStreamId := sm_input_stream_id sm;
                     inputUrl := url;
                     slotPosition := sm_slot_position sm;
                     gridRows := lt_grid_rows (snd stream);
                     gridCols := lt_grid_cols (snd stream) |} :: others)
          end
      end
  end.

(** The [UPDATE] of line 101; it is the one statement of the service that
    [output_port INTEGER UNIQUE] can refuse. *)
Definition persistRunning (outputStreamId port : Z) (outputUrl : string)
  : M unit :=
  w <- get ;;
  if portTaken (database w) outputStreamId port then throw uniqueViolation
  else modify (fun w =>
                 withDatabase w
                   (updateOutputStream (database w) outputStreamId
                                       (setRunning port outputUrl))).

Definition persistError (outputStreamId : Z) (message : string) : M unit :=
  modify (fun w =>
            withDatabase w
              (updateOutputStream (database w) outputStreamId
                                  (setError message))).

(** The [config] object literal, once its port and its mappings are
    known. *)
Definition configFor (outputStreamId : Z) (stream : OutputStreamRow)
    (port : Z) (inputs : list StreamMapping) : OutputStreamConfig :=
  {| id := outputStreamId;
     name := os_name stream;
     outputPort := port;
     resolution := os_resolution stream;
     framerate := os_framerate stream;
     bitrate := os_bitrate stream;
     mappings := inputs |}.

(** The body of the [try] block. *)
Definition startBody (outputStreamId : Z) : M unit :=
  w <- get ;;
  match selectOutputStream (database w) outputStreamId with
  | [] => throw "Output stream not found"
  | stream :: _ =>
      let rows := selectMappings (database w) outputStreamId in
      match rows with
      | [] => throw "No input streams mapped to this output"
      | _ :: _ =>
          port <- lift (resolvePort (fst stream) w) ;;
          inputs <- lift (buildMappings stream rows) ;;
          let config := configFor outputStreamId (fst stream) port inputs in
          (if mapHas (activeStreams w) outputStreamId
           then stopOutputStream outputStreamId
           else ret tt) ;;
          ffmpegProcess <- buildFFmpegProcess config ;;
          modify (fun w =>
                    withActiveStreams w
                      (mapSet (activeStreams w) outputStreamId ffmpegProcess)) ;;
          let outputUrl := rtspAddress config in
          persistRunning outputStreamId (outputPort config) outputUrl
      end
  end.

Definition startOutputStream (outputStreamId : Z) : M unit :=
  tryCatch (startBody outputStreamId)
           (fun message =>
              persistError outputStreamId message ;; throw message).

(** ** The observer service *)

(** [broadcast]: [send] on every client whose socket is open. *)
Definition broadcast (message : Json) : M unit :=
  modify (fun w =>
            withClients w
              (map (fun client =>
                      if isOpen client then send message client else client)
                   (clients w))).

(** One round of [startStreamMonitoring], run at time [now]. *)
Definition monitorStreams (now : string) : M unit :=
  w <- get ;;
  broadcast (statusMessage (database w) now).

Definition notifyStreamEvent (eventType streamType : string) (streamId : Z)
    (data : Json) (now : string) : M unit :=
  broadcast (eventMessage eventType streamType streamId data now).

(** Lines 44 to 86 on their own: the two queries and the [config] literal,
    read in the world [w]. *)
Definition loadConfig (outputStreamId : Z) (w : World)
  : result OutputStreamConfig :=
  match selectOutputStream (database w) outputStreamId with
  | [] => Throw "Output stream not found"
  | stream :: _ =>
      let rows := selectMappings (database w) outputStreamId in
      match rows with
      | [] => Throw "No input streams mapped to this output"
      | _ :: _ =>
          match resolvePort (fst stream) w with
          | Throw message => Throw message
          | Ok port =>
              match buildMappings stream rows with
              | Throw message => Throw message
              | Ok inputs =>
                  Ok (configFor outputStreamId (fst stream) port inputs)
              end
          end
      end
  end.

(** ** Runs *)

(** What the server reacts to: the two supervisor routes, the exit of a
    process, and the monitoring timer. *)
Inductive Event : Type :=
| StartRequest (outputStreamId : Z)
| StopRequest (outputStreamId : Z)
| ProcessClosed (pid : nat) (code : Z)
| MonitorTick (now : string).

(** The exit of a process is noted once.  The supervisor does not react: the
    statement that would put its listener on the handle, at line 183, comes
    after the one that throws. *)
Definition deliverClose (pid : nat) (code : Z) : M unit :=
  w <- get ;;
  match nth_error (spawned w) pid with
  | Some process =>
      if existsb (Nat.eqb pid) (closed w) then ret tt
      else modify (fun w => withClosed w (closed w ++ [pid]))
  | None => ret tt
  end.

Definition handle (e : Event) : M unit :=
  match e with
  | StartRequest outputStreamId => startOutputStream outputStreamId
  | StopRequest outputStreamId => stopOutputStream outputStreamId
  | ProcessClosed pid code => deliverClose pid code
  | MonitorTick now => monitorStreams now
  end.

(** The world after a sequence of events; the route that called a method
    that throws answers 500 and the server goes on. *)
Fixpoint run (events : list Event) (w : World) : World :=
  match events with
  | [] => w
  | e :: rest => run rest (snd (handle e w))
  end.

(** The server right after start-up. *)
Definition boot (d : Database) (port : Z) (observers : list Client) : World :=
  {| activeStreams := []; basePort := port;
     database := d; spawned := []; signals := []; closed := [];
     clients := observers |}.

End Services.

(* ================================================================= *)
(** * Scenarios *)

(** The grid of a configuration, as [buildFilterComplex] reads it: rows and
    columns of the first mapping. *)
Definition gridOf (config : OutputStreamConfig) : Z * Z :=
  match mappings config with
  | [] => (0, 0)
  | first :: _ => (gridRows first, gridCols first)
  end.

(** [0 <= slot < R * C] for a mapping of [config]. *)
Definition slotInGrid (config : OutputStreamConfig) (mapping : StreamMapping)
  : bool :=
  let '(R, C) := gridOf config in
  (0 <=? slotPosition mapping) && (slotPosition mapping <? R * C).

Definition camera (slot : Z) : StreamMapping :=
  {| inputStreamId := slot + 1; inputUrl := "rtsp://10.0.0.1/cam";
     slotPosition := slot; gridRows := 2; gridCols := 2 |}.

Definition wall (slots : list Z) : OutputStreamConfig :=
  {| id := 1; name := "wall"; outputPort := 8554; resolution := "1920x1080";
     framerate := 25; bitrate := "2000k"; mappings := map camera slots |}.

(** A 2x2 grid on a 1920x1080 canvas with slots 0 to 3 mapped. *)
Definition grid2x2 : OutputStreamConfig := wall [0; 1; 2; 3].

(** The same grid with one mapping, to slot 7. *)
Definition offGrid : OutputStreamConfig := wall [7].

Definition job (outputStreamId : Z) (label : string) : OutputStreamRow :=
  {| os_id := outputStreamId; os_name := label;
     os_layout_template_id := Some 2; os_output_port := None;
     os_output_url := None; os_resolution := "1920x1080"; os_framerate := 25;
     os_bitrate := "2000k"; os_status := stopped; os_last_error := None |}.

Definition feed (inputStreamId : Z) : InputStreamRow :=
  {| ist_id := inputStreamId; ist_name := "cam";
     ist_rtsp_url := "rtsp://10.0.0.1/cam"; ist_username := None;
     ist_password := None; ist_status := connected; ist_last_error := None |}.

Definition mapped (outputStreamId inputStreamId slot : Z) : StreamMappingRow :=
  {| sm_output_stream_id := outputStreamId;
     sm_input_stream_id := inputStreamId; sm_slot_position := slot |}.

(** Four jobs on the 2x2 template, none started yet; jobs 1 to 3 have a
    source each, job 4 has none. *)
Definition studio : Database :=
  {| layout_templates :=
       [{| lt_id := 2; lt_name := "2x2 Grid"; lt_grid_rows := 2;
           lt_grid_cols := 2 |}];
     output_streams := [job 1 "a"; job 2 "b"; job 3 "c"; job 4 "d"];
     input_streams := [feed 1; feed 2];
     stream_mappings := [mapped 1 1 0; mapped 2 1 0; mapped 3 2 0] |}.

(** The scenarios have sources without credentials, so [buildRtspUrl] never
    reaches the URL class; this stands for it there. *)
Definition urlClass (baseUrl username password : string) : result string :=
  Throw "Invalid URL".

Definition viewer : Client :=
  {| userId := 1; userRole := "viewer"; readyState := OPEN; sent := [] |}.

(** A registry that was filled by hand: jobs 1 and 2 of the studio are
    tracked with a process each and their rows are [running] on the ports
    8554 and 8555.  No run of the server leads here; the world serves to
    call the methods on a registry that is not empty. *)
Definition onStage : World :=
  let process (i : nat) (address : string) :=
    {| pid := i; spawnfile := "ffmpeg";
       spawnargs := ["-f"; "rtsp"; address] |} in
  {| activeStreams :=
       [(1, process 0%nat "rtsp://localhost:8554/a");
        (2, process 1%nat "rtsp://localhost:8555/b")];
     basePort := 8554;
     database :=
       updateOutputStream
         (updateOutputStream studio 1
            (setRunning 8554 "rtsp://localhost:8554/a"))
         2 (setRunning 8555 "rtsp://localhost:8555/b");
     spawned :=
       [process 0%nat "rtsp://localhost:8554/a";
        process 1%nat "rtsp://localhost:8555/b"];
     signals := []; closed := []; clients := [viewer] |}.

(** Five sources side by side, on a grid of one row and five columns. *)
Definition fiveColumns (canvas : string) : OutputStreamConfig :=
  {| id := 1; name := "wide"; outputPort := 8554;
     resolution := canvas;
     framerate := 25; bitrate := "2000k";
     mappings :=
       map (fun slot =>
              {| inputStreamId := slot + 1; inputUrl := "rtsp://10.0.0.1/cam";
                 slotPosition := slot; gridRows := 1; gridCols := 5 |})
           [0; 1; 2; 3; 4] |}.

(** A configuration that exact arithmetic and doubles disagree on: a canvas
    2^60 wide. *)
Definition wideCanvas : OutputStreamConfig :=
  fiveColumns "1152921504606846976x1080".

(* ================================================================= *)
(** * Creating an output stream: [schemas.createOutputStream] and its route *)

(** The body of [POST /output]; [None] is a missing field.  Text is taken to
    be ASCII, so that the length of a string is its number of characters. *)
Record CreateOutputStreamBody : Type := {
  body_name : option string;
  body_layoutTemplateId : option Z;
  body_resolution : option string;
  body_framerate : option Z;
  body_bitrate : option string
}.

(** The text after the leading digits, and those digits. *)
Fixpoint skipDigits (s : string) : string :=
  match s with
  | EmptyString => EmptyString
  | String c rest => if isDigit c then skipDigits rest else s
  end.

Fixpoint takeDigits (s : string) : string :=
  match s with
  | EmptyString => EmptyString
  | String c rest => if isDigit c then String c (takeDigits rest) else EmptyString
  end.

(** [/^\d+x\d+$/.test(s)]: digits, an [x], digits, and nothing else. *)
Definition resolutionPattern (s : string) : bool :=
  match s with
  | EmptyString => false
  | String c _ =>
      isDigit c
      && match skipDigits s with
         | EmptyString => false
         | String sep rest =>
             Ascii.eqb sep "x"
             && match rest with
                | EmptyString => false
                | String d _ =>
                    isDigit d && String.eqb (skipDigits rest) EmptyString
                end
         end
  end.

(** [Joi.string()] with the rules of one key: a missing value is an error
    only when required, the empty text always is, and then come the length
    and the pattern. *)
Definition stringRule (path : string) (isRequired : bool) (minLength : nat)
    (pattern : option (string -> bool)) (value : option string)
  : list ValidationError :=
  match value with
  | None =>
      if isRequired then [{| field := path; rule := "any.required" |}] else []
  | Some s =>
      if String.eqb s EmptyString
      then [{| field := path; rule := "string.empty" |}]
      else
        (if (String.length s <? minLength)%nat
         then [{| field := path; rule := "string.min" |}] else [])
        ++ match pattern with
           | Some test =>
               if test s then []
               else [{| field := path; rule := "string.pattern.base" |}]
           | None => []
           end
  end.

(** [schema.validate(req.body, { abortEarly: false })] for
    [createOutputStream], key by key. *)
Definition validateCreateOutputStream (body : CreateOutputStreamBody)
  : list ValidationError :=
  stringRule "name" true 2 None (body_name body)
  ++ required "layoutTemplateId" (body_layoutTemplateId body)
  ++ stringRule "resolution" false 0 (Some resolutionPattern)
                (body_resolution body)
  ++ match body_framerate body with
     | Some rate =>
         if negb (safeInteger rate)
         then [{| field := "framerate"; rule := "number.unsafe" |}]
         else if rate <? 1
              then [{| field := "framerate"; rule := "number.min" |}]
              else if 60 <? rate
                   then [{| field := "framerate"; rule := "number.max" |}]
                   else []
     | None => []
     end
  ++ stringRule "bitrate" false 0 None (body_bitrate body).

(** What a [VARCHAR(n)] column stores of a text: the text when it has at
    most [n] characters, its first [n] characters when all the others are
    spaces, and nothing, the statement being refused, otherwise. *)
Fixpoint allSpaces (s : string) : bool :=
  match s with
  | EmptyString => true
  | String c rest => Ascii.eqb c " " && allSpaces rest
  end.

Definition varchar (n : nat) (s : string) : option string :=
  if (String.length s <=? n)%nat then Some s
  else if allSpaces (substring n (String.length s - n) s)
       then Some (substring 0 n s)
       else None.

(** The row the route sends to [INSERT INTO output_streams]: the middleware
    drops the value Joi returns, so the defaults are those of the route,
    [resolution || '1920x1080'], [framerate || 25] and [bitrate || '2000k'];
    [newId] is the value of the [SERIAL] column and the other columns take
    their defaults.  There is no row when the statement is refused: [name]
    is [NOT NULL] and [VARCHAR(255)], [resolution] and [bitrate] are
    [VARCHAR(50)], [layout_template_id] and [framerate] are [INTEGER]. *)
Definition createdOutputStream (newId : Z) (body : CreateOutputStreamBody)
  : option OutputStreamRow :=
  match body_name body with
  | None => None
  | Some label =>
      let resolution :=
        match body_resolution body with
        | Some s => if String.eqb s EmptyString then "1920x1080" else s
        | None => "1920x1080"
        end in
      let framerate :=
        match body_framerate body with
        | Some rate => if rate =? 0 then 25 else rate
        | None => 25
        end in
      let bitrate :=
        match body_bitrate body with
        | Some s => if String.eqb s EmptyString then "2000k" else s
        | None => "2000k"
        end in
      let integers :=
        int4 framerate
        && match body_layoutTemplateId body with
           | Some template => int4 template
           | None => true
           end in
      match varchar 255 label, varchar 50 resolution, varchar 50 bitrate with
      | Some storedName, Some storedResolution, Some storedBitrate =>
          if integers then
            Some {| os_id := newId;
                    os_name := storedName;
                    os_layout_template_id := body_layoutTemplateId body;
                    os_output_port := None;
                    os_output_url := None;
                    os_resolution := storedResolution;
                    os_framerate := framerate;
                    os_bitrate := storedBitrate;
                    os_status := stopped;
                    os_last_error := None |}
          else None
      | _, _, _ => None
      end
  end.

(** The table after the [INSERT], or nothing when it is refused; besides the
    column rules, [layout_template_id] must be null or the id of a
    template. *)
Definition insertOutputStream (d : Database) (newId : Z)
    (body : CreateOutputStreamBody) : option Database :=
  match createdOutputStream newId body with
  | None => None
  | Some row =>
      let known :=
        match os_layout_template_id row with
        | Some template =>
            existsb (fun lt => lt_id lt =? template) (layout_templates d)
        | None => true
        end in
      if known then Some (withOutputStreams d (output_streams d ++ [row]))
      else None
  end.

(* ================================================================= *)
(** * Deleting an output stream: [DELETE /output/:id] *)

(** [DELETE FROM output_streams WHERE id = $1], with the [ON DELETE CASCADE]
    of [stream_mappings.output_stream_id]. *)
Definition deleteOutputStreamRow (d : Database) (outputStreamId : Z)
  : Database :=
  {| layout_templates := layout_templates d;
     output_streams :=
       filter (fun os => negb (os_id os =? outputStreamId)) (output_streams d);
     input_streams := input_streams d;
     stream_mappings :=
       filter (fun sm => negb (sm_output_stream_id sm =? outputStreamId))
              (stream_mappings d) |}.

(** What the handler does to the supervisor and the database: the stream is
    stopped, then its row is deleted; the result is whether a row was
    there ([RETURNING id]). *)
Definition deleteOutputStream (outputStreamId : Z) : M bool :=
  bind (stopOutputStream outputStreamId) (fun _ =>
  bind get (fun w =>
  bind (modify (fun w =>
                  withDatabase w
                    (deleteOutputStreamRow (database w) outputStreamId)))
       (fun _ =>
          ret (existsb (fun os => os_id os =? outputStreamId)
                       (output_streams (database w)))))).

(* ================================================================= *)
(** * More of the observer service *)

(** A row of [SELECT id, role, is_active FROM users]; [is_active] may be
    null. *)
Record UserRow : Type := {
  u_id : Z;
  u_role : string;
  u_is_active : option bool
}.

(** How a connection ends up: in [clients], or closed with a code and a
    reason. *)
Inductive Handshake : Type :=
| Joined
| Refused (code : Z) (reason : string).

Definition connectedMessage : Json :=
  JObject [("type", JString "connected");
           ("message", JString "WebSocket connected")].

(** The [connection] listener.  [token] is [url.searchParams.get('token')];
    [verify token] is [jwt.verify(token, secret).userId], the id the login
    route has signed, and throws when the token does not verify; [users] is
    the users table. *)
Definition handleConnection (verify : string -> result Z)
    (users : list UserRow) (token : option string) : M Handshake :=
  if falsy token then ret (Refused 1008 "Authentication required")
  else
    match verify (text token) with
    | Throw _ => ret (Refused 1008 "Authentication failed")
    | Ok decoded =>
        match filter (fun u => u_id u =? decoded) users with
        | [] => ret (Refused 1008 "Invalid user")
        | user :: _ =>
            match u_is_active user with
            | Some true =>
                bind (modify (fun w =>
                                withClients w
                                  (clients w
                                   ++ [{| userId := u_id user;
                                          userRole := u_role user;
                                          readyState := OPEN;
                                          sent := [connectedMessage] |}])))
                     (fun _ => ret Joined)
            | _ => ret (Refused 1008 "Invalid user")
            end
        end
    end.

(* ================================================================= *)
(** * Runs and their monitoring rounds *)

(** The number of monitoring rounds in a run. *)
Definition ticks (events : list Event) : nat :=
  List.length (filter (fun e => match e with
                                | MonitorTick _ => true
                                | _ => false
                                end) events).

(* ================================================================= *)
(** * More scenarios *)

(** A registry of a thousand tracked jobs, numbered from 100, filled by
    hand. *)
Definition fullHouse : World :=
  let process (i : nat) :=
    {| pid := i; spawnfile := "ffmpeg"; spawnargs := [] |} in
  {| activeStreams :=
       map (fun i => (100 + Z.of_nat i, process i)) (seq 0 1000);
     basePort := 8554; database := studio;
     spawned := map process (seq 0 1000); signals := []; closed := [];
     clients := [] |}.



(* ================================================================= *)
(** * The arithmetic of doubles below 2^53 *)

Lemma roundToDouble_safe (z : Z) :
  Z.abs z < 2 ^ 53 -> roundToDouble z = Int z.
Proof.
  intro Hz; unfold roundToDouble.
  destruct (Z.ltb_spec (Z.abs z) (2 ^ 53)); [reflexivity|lia].
Qed.

(** Rounding a quotient to [t] binary places, with a divisor below
    [2^(t+1)], does not reach the next integer. *)
Lemma rounded_quotient_floor (a q t m' : Z) :
  0 < a -> 0 < q -> 0 <= t -> q < 2 ^ (t + 1) ->
  let n := a * 2 ^ t in
  (m' = n / q \/ (m' = n / q + 1 /\ q <= 2 * (n mod q))) ->
  m' / 2 ^ t = a / q.
Proof.
  intros Ha Hq Ht Hsmall n Hm.
  assert (Hpow : 0 < 2 ^ t) by (apply Z.pow_pos_nonneg; lia).
  assert (Hpow1 : 2 ^ (t + 1) = 2 * 2 ^ t) by (rewrite Z.pow_add_r by lia; lia).
  set (k := a / q).
  assert (Hk : k * q <= a < (k + 1) * q).
  { unfold k.
    pose proof (Z.div_mod a q ltac:(lia)).
    pose proof (Z.mod_pos_bound a q Hq).
    nia. }
  assert (Hnm : n = q * (n / q) + n mod q) by (apply Z.div_mod; lia).
  pose proof (Z.mod_pos_bound n q Hq) as Hr.
  assert (Hlow : k * 2 ^ t <= n / q).
  { apply Z.div_le_lower_bound; [lia|]. unfold n. nia. }
  assert (Hup : n / q < (k + 1) * 2 ^ t).
  { apply Z.div_lt_upper_bound; [lia|]. unfold n. nia. }
  symmetry; apply Z.div_unique with (r := m' - k * 2 ^ t); [|lia].
  left.
  destruct Hm as [->|[-> Hround]]; [lia|].
  split; [lia|].
  destruct (Z.eq_dec (n / q + 1) ((k + 1) * 2 ^ t)) as [Heq|Hne]; [|lia].
  exfalso.
  assert (Hgap : 1 <= (k + 1) * q - a) by lia.
  assert (n mod q = n - q * ((k + 1) * 2 ^ t - 1)) by (rewrite <- Heq; lia).
  assert (2 * 2 ^ t * ((k + 1) * q - a) <= q) by (unfold n in *; nia).
  nia.
Qed.

(** Below 2^53, [Math.floor(a / b)] is the integer quotient. *)
Lemma floorDiv_exact (a b : Z) :
  0 <= a < 2 ^ 53 -> 0 < b < 2 ^ 53 -> floorDiv (Int a) b = Int (a / b).
Proof.
  intros Ha Hb; unfold floorDiv.
  destruct (Z.eqb_spec b 0); [lia|].
  destruct (Z.eqb_spec a 0) as [->|Hnz]; [now rewrite Z.div_0_l by lia|].
  rewrite (Z.abs_eq a), (Z.abs_eq b) by lia.
  unfold nearestQuotient.
  set (e0 := Z.log2 a - Z.log2 b - 52).
  set (e1 := if _ <? _ then e0 - 1 else e0).
  set (e := Z.max e1 (-1074)).
  assert (Hla : Z.log2 a < 53) by (apply Z.log2_lt_pow2; lia).
  assert (Hlb : 0 <= Z.log2 b < 53).
  { split; [apply Z.log2_nonneg|apply Z.log2_lt_pow2; lia]. }
  assert (Hla0 : 0 <= Z.log2 a) by apply Z.log2_nonneg.
  assert (He1 : e0 - 1 <= e1 <= e0) by (unfold e1; destruct (_ <? _); lia).
  assert (He : e <= 0 /\ Z.log2 b <= - e) by (unfold e, e0 in *; lia).
  destruct He as [He Ht].
  replace (Z.max 0 e) with 0 by lia.
  replace (Z.max 0 (- e)) with (- e) by lia.
  rewrite Z.pow_0_r, !Z.mul_1_r.
  replace (Z.sgn a * Z.sgn b) with 1
    by (rewrite (Z.sgn_pos a), (Z.sgn_pos b); lia).
  cbn [Z.ltb Z.compare].
  f_equal.
  apply rounded_quotient_floor; try lia.
  - apply Z.lt_le_trans with (2 ^ (Z.log2 b + 1)).
    + pose proof (Z.log2_spec b ltac:(lia)) as Hspec.
      replace (Z.log2 b + 1) with (Z.succ (Z.log2 b)) by lia; lia.
    + apply Z.pow_le_mono_r; lia.
  - cbv zeta.
    match goal with
    | |- context [if ?c then _ else _] => destruct c eqn:Hc
    end; [right|left; reflexivity].
    split; [reflexivity|].
    apply orb_true_iff in Hc; destruct Hc as [Hc|Hc].
    + apply Z.ltb_lt in Hc; lia.
    + apply andb_true_iff in Hc; destruct Hc as [Hc _].
      apply Z.eqb_eq in Hc; lia.
Qed.

Lemma jsRem_mod (a b : Z) : 0 <= a -> 0 < b -> jsRem a b = Int (a mod b).
Proof.
  intros Ha Hb; unfold jsRem.
  destruct (Z.eqb_spec b 0); [lia|].
  now rewrite Z.rem_mod_nonneg by lia.
Qed.

Lemma jsMul_exact (a b : Z) :
  Z.abs (a * b) < 2 ^ 53 -> jsMul (Int a) (Int b) = Int (a * b).
Proof. intro Hab; cbn; now apply roundToDouble_safe. Qed.

(** A double that is not beyond 2^1023 is finite. *)
Lemma roundToDouble_finite (z : Z) :
  0 <= z < 2 ^ 1023 -> exists n, 0 <= n /\ roundToDouble z = Int n.
Proof.
  intro Hz; unfold roundToDouble.
  rewrite Z.abs_eq by lia.
  destruct (Z.ltb_spec z (2 ^ 53)) as [|Hbig];
    [exists z; split; [lia|reflexivity]|].
  assert (Hpos : 0 < z) by (assert (0 < 2 ^ 53) by reflexivity; lia).
  set (e := Z.log2 z - 52).
  assert (Hlog : 53 <= Z.log2 z) by (apply Z.log2_le_pow2; lia).
  assert (He : 0 < 2 ^ e) by (apply Z.pow_pos_nonneg; unfold e; lia).
  assert (Hle : 2 ^ e <= z).
  { apply Z.le_trans with (2 ^ Z.log2 z).
    - apply Z.pow_le_mono_r; unfold e; lia.
    - apply Z.log2_spec; lia. }
  set (q := z / 2 ^ e).
  match goal with
  | |- context [if ?c then q + 1 else q] =>
      set (q' := if c then q + 1 else q)
  end.
  assert (Hq : 0 <= q /\ q * 2 ^ e <= z).
  { unfold q; split; [apply Z.div_pos; lia|].
    rewrite Z.mul_comm; apply Z.mul_div_le; lia. }
  assert (Hq' : 0 <= q' /\ q' * 2 ^ e <= 2 * z).
  { unfold q'.
    match goal with
    | |- context [if ?c then _ else _] => destruct c
    end; nia. }
  destruct (Z.leb_spec (2 ^ 1024) (q' * 2 ^ e)) as [Hover|Hfin].
  - exfalso.
    assert (2 ^ 1024 = 2 * 2 ^ 1023) by reflexivity.
    lia.
  - exists (Z.sgn z * (q' * 2 ^ e)); split; [|reflexivity].
    rewrite Z.sgn_pos by lia; nia.
Qed.

(** ** Decimal notation *)

Lemma digitChar_digit (d : Z) :
  0 <= d < 10 -> isDigit (digitChar d) = true /\ digitValue (digitChar d) = d.
Proof.
  intro Hd.
  assert (Hcase : d = 0 \/ d = 1 \/ d = 2 \/ d = 3 \/ d = 4 \/ d = 5 \/ d = 6
                  \/ d = 7 \/ d = 8 \/ d = 9) by lia.
  repeat (destruct Hcase as [->|Hcase]; [split; reflexivity|]).
  subst d; split; reflexivity.
Qed.

Lemma readDigits_printDigits (fuel : nat) :
  forall (n acc : Z) (rest : string),
    0 <= n < 2 ^ Z.of_nat fuel -> (0 < fuel)%nat ->
    exists k, 0 <= k /\
      readDigits acc (printDigits fuel n rest)
      = readDigits (acc * 10 ^ k + n) rest.
Proof.
  induction fuel as [|fuel IH]; intros n acc rest Hn Hfuel; [lia|].
  cbn [printDigits].
  pose proof (Z.mod_pos_bound n 10 ltac:(lia)) as Hmod.
  destruct (digitChar_digit (n mod 10) Hmod) as [Hdigit Hvalue].
  destruct (Z.ltb_spec n 10) as [Hsmall|Hbig].
  - exists 1; split; [lia|].
    cbn [readDigits]; rewrite Hdigit, Hvalue.
    rewrite Z.mod_small by lia.
    f_equal; lia.
  - assert (Hpow : 2 ^ Z.of_nat (S fuel) = 2 * 2 ^ Z.of_nat fuel).
    { rewrite Nat2Z.inj_succ, Z.pow_succ_r by lia; reflexivity. }
    assert (Hdiv : 0 <= n / 10 < 2 ^ Z.of_nat fuel).
    { split; [apply Z.div_pos; lia|].
      apply Z.div_lt_upper_bound; lia. }
    assert (Hpos : (0 < fuel)%nat).
    { destruct fuel; [|lia].
      cbn in Hdiv.
      assert (1 <= n / 10) by (apply Z.div_le_lower_bound; lia).
      lia. }
    destruct (IH (n / 10) acc (String (digitChar (n mod 10)) rest) Hdiv Hpos)
      as [k [Hk Hread]].
    exists (k + 1); split; [lia|].
    rewrite Hread; cbn [readDigits]; rewrite Hdigit, Hvalue.
    f_equal.
    rewrite Z.pow_add_r by lia.
    pose proof (Z.div_mod n 10 ltac:(lia)).
    lia.
Qed.

(** What [decimal] prints is read back. *)
Lemma readDigits_decimal (n : Z) : 0 <= n -> readDigits 0 (decimal n) = Some n.
Proof.
  intro Hn; unfold decimal.
  destruct (Z.ltb_spec n 0); [lia|].
  destruct (readDigits_printDigits (S (Z.to_nat (Z.log2 n))) n 0 EmptyString)
    as [k [_ Hread]].
  - split; [exact Hn|].
    rewrite Nat2Z.inj_succ, Z2Nat.id by apply Z.log2_nonneg.
    destruct (Z.eq_dec n 0) as [->|]; [reflexivity|].
    apply Z.log2_spec; lia.
  - lia.
  - rewrite Hread; cbn; f_equal; lia.
Qed.

Lemma readDigits_bound (s : string) :
  forall acc v, 0 <= acc -> readDigits acc s = Some v ->
    0 <= v < (acc + 1) * 10 ^ Z.of_nat (String.length s).
Proof.
  induction s as [|c rest IH]; intros acc v Hacc; cbn [readDigits String.length].
  - intros [= <-]; cbn; lia.
  - destruct (isDigit c) eqn:Hc; [|discriminate].
    intro Hread.
    assert (Hd : 0 <= digitValue c <= 9).
    { unfold isDigit in Hc; apply andb_true_iff in Hc; destruct Hc as [H1 H2].
      apply Nat.leb_le in H1, H2; unfold digitValue; lia. }
    apply IH in Hread; [|lia].
    rewrite Nat2Z.inj_succ, Z.pow_succ_r by lia.
    assert (0 < 10 ^ Z.of_nat (String.length rest))
      by (apply Z.pow_pos_nonneg; lia).
    nia.
Qed.

Lemma intToString_safe (z : Z) :
  Z.abs z < 2 ^ 53 -> intToString z = decimal z.
Proof.
  intro Hz; unfold intToString.
  rewrite roundToDouble_safe by exact Hz.
  destruct (Z.ltb_spec (Z.abs z) (10 ^ 21)) as [|Hbig]; [reflexivity|].
  exfalso.
  assert (2 ^ 53 < 10 ^ 21) by reflexivity.
  lia.
Qed.

(** Below 2^53, what a template literal prints is what [Number] reads. *)
Lemma Number_intToString (z : Z) :
  0 <= z < 2 ^ 53 -> Number (intToString z) = Int z.
Proof.
  intro Hz.
  rewrite intToString_safe by (rewrite Z.abs_eq; lia).
  unfold Number; rewrite readDigits_decimal by lia.
  apply roundToDouble_safe; rewrite Z.abs_eq; lia.
Qed.

Lemma isDigit_not_x (c : ascii) :
  isDigit c = true -> Ascii.eqb c "x" = false.
Proof.
  destruct c as [[|] [|] [|] [|] [|] [|] [|] [|]]; intro Hdigit;
    vm_compute in Hdigit; try discriminate; reflexivity.
Qed.

Lemma split_digits (s : string) :
  forall acc v, readDigits acc s = Some v -> split "x" s = [s].
Proof.
  induction s as [|c rest IH]; intros acc v; cbn; [reflexivity|].
  destruct (isDigit c) eqn:Hc; [|discriminate].
  intro Hread.
  now rewrite (isDigit_not_x c Hc), (IH _ _ Hread).
Qed.

Lemma split_digits_x (s rest : string) :
  forall acc v, readDigits acc s = Some v ->
    split "x" (s ++ String "x" rest) = s :: split "x" rest.
Proof.
  induction s as [|c tail IH]; intros acc v; cbn; [reflexivity|].
  destruct (isDigit c) eqn:Hc; [|discriminate].
  intro Hread.
  now rewrite (isDigit_not_x c Hc), (IH _ _ Hread).
Qed.

(** A resolution written as two numbers below 2^53 is read as those
    numbers. *)
Lemma canvasSize_intToString (W H : Z) :
  0 <= W < 2 ^ 53 -> 0 <= H < 2 ^ 53 ->
  canvasSize (intToString W ++ "x" ++ intToString H) = (Int W, Int H).
Proof.
  intros HW HH.
  pose proof (Number_intToString W HW) as HnW.
  pose proof (Number_intToString H HH) as HnH.
  rewrite !intToString_safe in * by (rewrite Z.abs_eq; lia).
  unfold canvasSize.
  change (decimal W ++ "x" ++ decimal H)
    with (decimal W ++ String "x" (decimal H)).
  rewrite (split_digits_x _ _ 0 W) by (apply readDigits_decimal; lia).
  rewrite (split_digits _ 0 H) by (apply readDigits_decimal; lia).
  cbn [map nth]; now rewrite HnW, HnH.
Qed.

(* ================================================================= *)
(** * Properties of the pipeline description *)

Lemma mapiFrom_map {A B C : Type} (f : nat -> B -> C) (g : A -> B)
    (xs : list A) (start : nat) :
  mapiFrom start f (map g xs) = mapiFrom start (fun i a => f i (g a)) xs.
Proof.
  revert start; induction xs as [|a rest IH]; intro start; cbn.
  - reflexivity.
  - now rewrite IH.
Qed.

Lemma allOf_Some {A B : Type} (f : A -> B) (xs : list A) :
  allOf (map (fun a => Some (f a)) xs) = Some (map f xs).
Proof.
  induction xs as [|a rest IH]; cbn; [reflexivity|].
  now rewrite IH.
Qed.

Lemma allOf_known {A B : Type} (f : A -> option B) (xs : list A) :
  (forall a, In a xs -> exists b, f a = Some b) ->
  exists bs, allOf (map f xs) = Some bs.
Proof.
  induction xs as [|a rest IH]; intro Hall; cbn; [eexists; reflexivity|].
  destruct (Hall a) as [b Hb]; [now left|].
  destruct IH as [bs Hbs]; [intros a' Hin; apply Hall; now right|].
  rewrite Hb, Hbs; eexists; reflexivity.
Qed.

(** The filter text is the rendering of the rectangles, and there is the
    one when there is the other. *)
Lemma buildFilterComplex_renders (config : OutputStreamConfig) :
  mappings config <> [] ->
  buildFilterComplex config = option_map Ok (renderFilter (layoutRects config)).
Proof.
  intro Hne.
  unfold buildFilterComplex, layoutRects, renderFilter.
  destruct (canvasSize (resolution config)) as [width height].
  destruct (mappings config) as [|first rest] eqn:Hm; [congruence|].
  set (cellWidth := floorDiv width (gridCols first)).
  set (cellHeight := floorDiv height (gridRows first)).
  set (place := layoutPosition (gridCols first) cellWidth cellHeight).
  rewrite !map_map.
  assert (Hsizes :
            map (fun mapping =>
                   sizeText (let '(x, y) := place mapping in
                             {| x := x; y := y;
                                w := cellWidth; h := cellHeight |}))
                (first :: rest)
            = map (fun _ =>
                     match numToString cellWidth, numToString cellHeight with
                     | Some a, Some b => Some (a, b)
                     | _, _ => None
                     end)
                  (first :: rest)).
  { apply map_ext; intro mapping; now destruct (place mapping). }
  assert (Horigins :
            map (fun mapping =>
                   positionText
                     (x (let '(x, y) := place mapping in
                         {| x := x; y := y; w := cellWidth; h := cellHeight |}))
                     (y (let '(x, y) := place mapping in
                         {| x := x; y := y; w := cellWidth; h := cellHeight |})))
                (first :: rest)
            = map (fun mapping =>
                     let '(x, y) := place mapping in positionText x y)
                  (first :: rest)).
  { apply map_ext; intro mapping; now destruct (place mapping). }
  rewrite Hsizes, Horigins.
  destruct (numToString cellWidth) as [cellWidthText|];
    [|reflexivity].
  destruct (numToString cellHeight) as [cellHeightText|];
    [|reflexivity].
  rewrite (allOf_Some (fun _ => (cellWidthText, cellHeightText))).
  destruct (allOf _) as [layoutPositions|]; [|reflexivity].
  unfold mapi.
  rewrite !mapiFrom_map, !length_map.
  reflexivity.
Qed.

(** With a canvas of two read numbers there is a filter text, whatever the
    grid and the slots are. *)
Lemma renderFilter_known (config : OutputStreamConfig) (width height : num) :
  canvasSize (resolution config) = (width, height) ->
  width <> Unread -> height <> Unread ->
  exists filter, renderFilter (layoutRects config) = Some filter.
Proof.
  intros Hsize Hwidth Hheight.
  assert (Hround : forall z, roundToDouble z <> Unread).
  { intro z; unfold roundToDouble.
    destruct (_ <? _); [discriminate|].
    destruct (_ <=? _); [destruct (_ <? _); discriminate|discriminate]. }
  assert (Hfloor : forall a b, a <> Unread -> floorDiv a b <> Unread).
  { intros a b Ha; unfold floorDiv.
    destruct a; try congruence.
    - destruct (b =? 0);
        [destruct (0 <? z); [|destruct (z <? 0)]; discriminate|].
      destruct (z =? 0); [discriminate|].
      destruct (nearestQuotient _ _) as [m e].
      destruct (0 <? _); discriminate.
    - destruct (b <? 0); discriminate.
    - destruct (b <? 0); discriminate. }
  assert (Hmul : forall a b, a <> Unread -> b <> Unread ->
                             jsMul a b <> Unread).
  { intros a b Ha Hb; unfold jsMul.
    destruct a, b; try congruence; try apply Hround;
      try (destruct (z =? 0); [discriminate|];
           destruct (Bool.eqb _ _); discriminate). }
  assert (Hrem : forall a b, jsRem a b <> Unread).
  { intros a b; unfold jsRem; destruct (b =? 0); discriminate. }
  assert (Htext : forall n, n <> Unread -> exists t, numToString n = Some t).
  { intros n Hn; destruct n; try congruence; eexists; reflexivity. }
  unfold renderFilter, layoutRects; rewrite Hsize.
  destruct (mappings config) as [|first rest]; [eexists; reflexivity|].
  set (cellWidth := floorDiv width (gridCols first)).
  set (cellHeight := floorDiv height (gridRows first)).
  assert (HcellWidth : cellWidth <> Unread) by now apply Hfloor.
  assert (HcellHeight : cellHeight <> Unread) by now apply Hfloor.
  rewrite !map_map.
  destruct (allOf_known
              (fun mapping =>
                 sizeText
                   (let '(x, y) :=
                      layoutPosition (gridCols first) cellWidth cellHeight
                                     mapping in
                    {| x := x; y := y; w := cellWidth; h := cellHeight |}))
              (first :: rest)) as [sizes Hsizes].
  { intros mapping _.
    destruct (layoutPosition _ _ _ mapping); unfold sizeText; cbn [w h].
    destruct (Htext cellWidth HcellWidth) as [a ->].
    destruct (Htext cellHeight HcellHeight) as [b ->].
    eexists; reflexivity. }
  destruct (allOf_known
              (fun mapping =>
                 positionText
                   (x (let '(x, y) :=
                         layoutPosition (gridCols first) cellWidth cellHeight
                                        mapping in
                       {| x := x; y := y; w := cellWidth; h := cellHeight |}))
                   (y (let '(x, y) :=
                         layoutPosition (gridCols first) cellWidth cellHeight
                                        mapping in
                       {| x := x; y := y; w := cellWidth; h := cellHeight |})))
              (first :: rest)) as [origins Horigins].
  { intros mapping _.
    unfold layoutPosition; cbn [x y]; unfold positionText.
    destruct (Htext (jsMul (jsRem (slotPosition mapping) (gridCols first))
                           cellWidth)) as [a ->];
      [apply Hmul; [apply Hrem|exact HcellWidth]|].
    destruct (Htext (jsMul (floorDiv (Int (slotPosition mapping))
                                     (gridCols first)) cellHeight)) as [b ->];
      [apply Hmul; [apply Hfloor; discriminate|exact HcellHeight]|].
    eexists; reflexivity. }
  rewrite Hsizes, Horigins.
  eexists; reflexivity.
Qed.

(** Where a mapping goes on a grid with [C > 0] columns, for a slot that is
    not negative, when the two products stay below 2^53. *)
Lemma layoutPosition_exact (C cw ch : Z) (mapping : StreamMapping) :
  0 < C < 2 ^ 53 -> 0 <= slotPosition mapping < 2 ^ 53 ->
  Z.abs (slotPosition mapping mod C * cw) < 2 ^ 53 ->
  Z.abs (slotPosition mapping / C * ch) < 2 ^ 53 ->
  layoutPosition C (Int cw) (Int ch) mapping
  = (Int (slotPosition mapping mod C * cw), Int (slotPosition mapping / C * ch)).
Proof.
  intros HC Hs Hx Hy; unfold layoutPosition.
  rewrite jsRem_mod, floorDiv_exact by lia.
  now rewrite !jsMul_exact.
Qed.

(** The rectangle of the [i]-th mapping on a grid of positive dimensions,
    when every number stays below 2^53. *)
Lemma layoutRects_nth (config : OutputStreamConfig)
    (first : StreamMapping) (rest : list StreamMapping) (W H : Z)
    (i : nat) (mapping : StreamMapping) :
  mappings config = first :: rest ->
  resolution config = intToString W ++ "x" ++ intToString H ->
  0 <= W < 2 ^ 53 -> 0 <= H < 2 ^ 53 ->
  0 < gridRows first < 2 ^ 53 -> 0 < gridCols first < 2 ^ 53 ->
  nth_error (mappings config) i = Some mapping ->
  0 <= slotPosition mapping < 2 ^ 53 ->
  slotPosition mapping / gridCols first * (H / gridRows first) < 2 ^ 53 ->
  nth_error (layoutRects config) i
  = Some {| x := Int (slotPosition mapping mod gridCols first
                      * (W / gridCols first));
            y := Int (slotPosition mapping / gridCols first
                      * (H / gridRows first));
            w := Int (W / gridCols first);
            h := Int (H / gridRows first) |}.
Proof.
  intros Hm Hres HW HH HR HC Hnth Hs Hy.
  unfold layoutRects.
  rewrite Hres, (canvasSize_intToString W H HW HH).
  rewrite Hm in *.
  rewrite nth_error_map, Hnth; cbn [option_map].
  rewrite !floorDiv_exact by lia.
  assert (Hw : 0 <= W / gridCols first) by (apply Z.div_pos; lia).
  assert (Hh : 0 <= H / gridRows first) by (apply Z.div_pos; lia).
  assert (HWC : gridCols first * (W / gridCols first) <= W)
    by (apply Z.mul_div_le; lia).
  pose proof (Z.mod_pos_bound (slotPosition mapping) (gridCols first)
                ltac:(lia)) as Hcol.
  assert (Hrow : 0 <= slotPosition mapping / gridCols first)
    by (apply Z.div_pos; lia).
  rewrite layoutPosition_exact; [reflexivity|lia|lia| |].
  - rewrite Z.abs_eq by nia. nia.
  - rewrite Z.abs_eq by nia. lia.
Qed.

(** C1, as stated, fails: the claim is made for every canvas, and the code
    computes on doubles.  On a canvas 2^60 wide, cut into five columns, the
    cell of slot 4 is 230584300921369408 wide and starts at
    922337203685477632, where floor(W/C) is 230584300921369395. *)
Lemma layout_geometry_not_exact_on_wide_canvas :
  nth_error (layoutRects wideCanvas) 4
  = Some {| x := Int 922337203685477632; y := Int 0;
            w := Int 230584300921369408; h := Int 1080 |}
  /\ ~ (forall (config : OutputStreamConfig) (first : StreamMapping)
               (rest : list StreamMapping) (W H : Z) (i : nat)
               (mapping : StreamMapping),
           mappings config = first :: rest ->
           resolution config = intToString W ++ "x" ++ intToString H ->
           0 <= W -> 0 <= H ->
           0 < gridRows first -> 0 < gridCols first ->
           nth_error (mappings config) i = Some mapping ->
           0 <= slotPosition mapping < gridRows first * gridCols first ->
           nth_error (layoutRects config) i
           = Some {| x := Int (slotPosition mapping mod gridCols first
                               * (W / gridCols first));
                     y := Int (slotPosition mapping / gridCols first
                               * (H / gridRows first));
                     w := Int (W / gridCols first);
                     h := Int (H / gridRows first) |}).
Proof.
  split; [vm_compute; reflexivity|].
  intro Hclaim.
  assert (Hrect :
            nth_error (layoutRects wideCanvas) 4
            = Some {| x := Int (4 mod 5 * (2 ^ 60 / 5));
                      y := Int (4 / 5 * (1080 / 1));
                      w := Int (2 ^ 60 / 5);
                      h := Int (1080 / 1) |}).
  { refine (Hclaim wideCanvas _ _ (2 ^ 60) 1080 4%nat _ eq_refl _ _ _ _ _
                   eq_refl _).
    - vm_compute; reflexivity.
    - discriminate.
    - discriminate.
    - reflexivity.
    - reflexivity.
    - cbn; lia. }
  vm_compute in Hrect; discriminate.
Qed.

(** C1, amended. On a grid of R rows and C columns and a canvas of W by H,
    all below 2^53, the rectangle [buildFilterComplex] gives a mapping to
    slot s, 0 <= s < R*C, has width floor(W/C), height floor(H/R) and origin
    ((s mod C) * floor(W/C), (s div C) * floor(H/R)); the filter text is the
    rendering of these rectangles.  On the 2x2 grid over 1920x1080 with slots
    0 to 3 mapped the rectangles are 960x540 at (0,0), (960,0), (0,540) and
    (960,540). *)
Theorem layout_geometry :
  (forall (config : OutputStreamConfig) (first : StreamMapping)
          (rest : list StreamMapping) (W H : Z),
      mappings config = first :: rest ->
      resolution config = intToString W ++ "x" ++ intToString H ->
      0 <= W < 2 ^ 53 -> 0 <= H < 2 ^ 53 ->
      0 < gridRows first < 2 ^ 53 -> 0 < gridCols first < 2 ^ 53 ->
      (exists filter,
          buildFilterComplex config = Some (Ok filter)
          /\ renderFilter (layoutRects config) = Some filter)
      /\ List.length (layoutRects config) = List.length (mappings config)
      /\ forall (i : nat) (mapping : StreamMapping),
           nth_error (mappings config) i = Some mapping ->
           0 <= slotPosition mapping < gridRows first * gridCols first ->
           slotPosition mapping < 2 ^ 53 ->
           nth_error (layoutRects config) i
           = Some {| x := Int (slotPosition mapping mod gridCols first
                               * (W / gridCols first));
                     y := Int (slotPosition mapping / gridCols first
                               * (H / gridRows first));
                     w := Int (W / gridCols first);
                     h := Int (H / gridRows first) |})
  /\ layoutRects grid2x2
     = [{| x := Int 0; y := Int 0; w := Int 960; h := Int 540 |};
        {| x := Int 960; y := Int 0; w := Int 960; h := Int 540 |};
        {| x := Int 0; y := Int 540; w := Int 960; h := Int 540 |};
        {| x := Int 960; y := Int 540; w := Int 960; h := Int 540 |}]
  /\ buildFilterComplex grid2x2
     = Some
         (Ok ("[0:v]scale=960:540,setsar=1[v0];[1:v]scale=960:540,setsar=1[v1];"
              ++ "[2:v]scale=960:540,setsar=1[v2];"
              ++ "[3:v]scale=960:540,setsar=1[v3];"
              ++ "[v0][v1][v2][v3]xstack=inputs=4:"
              ++ "layout=0_0|960_0|0_540|960_540[out]")).
Proof.
  split; [|split; vm_compute; reflexivity].
  intros config first rest W H Hm Hres HW HH HR HC.
  split.
  { destruct (renderFilter_known config (Int W) (Int H)) as [filter Hfilter];
      [rewrite Hres; now apply canvasSize_intToString
      |discriminate|discriminate|].
    exists filter; split; [|exact Hfilter].
    rewrite buildFilterComplex_renders by congruence.
    now rewrite Hfilter. }
  split.
  - unfold layoutRects.
    rewrite Hres, (canvasSize_intToString W H HW HH), Hm.
    now rewrite length_map.
  - intros i mapping Hnth Hs Hsafe.
    apply layoutRects_nth with (rest := rest); auto; try lia.
    assert (Hh : 0 <= H / gridRows first) by (apply Z.div_pos; lia).
    assert (HHR : gridRows first * (H / gridRows first) <= H)
      by (apply Z.mul_div_le; lia).
    assert (Hrow : slotPosition mapping / gridCols first < gridRows first)
      by (apply Z.div_lt_upper_bound; lia).
    assert (Hrow0 : 0 <= slotPosition mapping / gridCols first)
      by (apply Z.div_pos; lia).
    nia.
Qed.

(** The general part of [layout_geometry] at the 2x2 scenario, slot 3. *)
Lemma layout_geometry_witness :
  nth_error (layoutRects grid2x2) 3
  = Some {| x := Int (3 mod 2 * (1920 / 2)); y := Int (3 / 2 * (1080 / 2));
            w := Int (1920 / 2); h := Int (1080 / 2) |}.
Proof.
  refine (proj2 (proj2 (proj1 layout_geometry grid2x2 (camera 0)
                   (map camera [1; 2; 3]) 1920 1080 _ _ _ _ _ _))
            3%nat (camera 3) _ _ _).
  - reflexivity.
  - vm_compute; reflexivity.
  - split; [discriminate|reflexivity].
  - split; [discriminate|reflexivity].
  - split; reflexivity.
  - split; reflexivity.
  - reflexivity.
  - cbn; lia.
  - reflexivity.
Defined.

(** C6, as stated, fails: a configuration with a mapping to a slot outside
    the grid is not answered with an error. *)
Lemma out_of_grid_slot_not_rejected :
  ~ (forall (config : OutputStreamConfig) (mapping : StreamMapping),
        In mapping (mappings config) ->
        slotInGrid config mapping = false ->
        exists message, buildFilterComplex config = Some (Throw message)).
Proof.
  intro Hclaim.
  destruct (Hclaim offGrid (camera 7)) as [message Hthrow].
  - left; reflexivity.
  - reflexivity.
  - vm_compute in Hthrow; discriminate.
Qed.

(** C6, amended. A negative slot is refused when the mapping is created
    ([slotPosition] has [min(0)]), and so is a slot beyond 2^53 - 1
    ([number.unsafe]) or, by the [INTEGER] column, beyond 2^31 - 1.  A slot
    s >= R*C up to 2^31 - 1 is accepted by the validation and stored by the
    [INSERT], and [buildFilterComplex] gives the mapping the rectangle at
    ((s mod C) * floor(W/C), (s div C) * floor(H/R)), in a row s div C >= R
    under the grid, as long as the numbers stay below 2^53.  The mapping is
    neither dropped nor moved into the grid. *)
Theorem out_of_grid_slot_placed :
  (forall (config : OutputStreamConfig) (first : StreamMapping)
          (rest : list StreamMapping) (W H : Z) (i : nat)
          (mapping : StreamMapping),
      mappings config = first :: rest ->
      resolution config = intToString W ++ "x" ++ intToString H ->
      0 <= W < 2 ^ 53 -> 0 <= H < 2 ^ 53 ->
      0 < gridRows first < 2 ^ 53 -> 0 < gridCols first < 2 ^ 53 ->
      nth_error (mappings config) i = Some mapping ->
      gridRows first * gridCols first <= slotPosition mapping < 2 ^ 31 ->
      slotPosition mapping / gridCols first * (H / gridRows first) < 2 ^ 53 ->
      (exists filter,
          buildFilterComplex config = Some (Ok filter)
          /\ renderFilter (layoutRects config) = Some filter)
      /\ nth_error (layoutRects config) i
         = Some {| x := Int (slotPosition mapping mod gridCols first
                             * (W / gridCols first));
                   y := Int (slotPosition mapping / gridCols first
                             * (H / gridRows first));
                   w := Int (W / gridCols first);
                   h := Int (H / gridRows first) |}
      /\ gridRows first <= slotPosition mapping / gridCols first)
  /\ (forall (body : CreateMappingBody) (slot : Z),
        body_slotPosition body = Some slot ->
        slot < 0 \/ 2 ^ 53 - 1 < slot ->
        accepted body = false)
  /\ (forall outputStreamId inputStreamId slot : Z,
        safeInteger outputStreamId = true ->
        safeInteger inputStreamId = true ->
        0 <= slot <= 2 ^ 53 - 1 ->
        accepted {| body_outputStreamId := Some outputStreamId;
                    body_inputStreamId := Some inputStreamId;
                    body_slotPosition := Some slot |} = true)
  /\ (forall (d : Database) (outputStreamId inputStreamId slot : Z),
        0 <= slot < 2 ^ 31 ->
        int4 outputStreamId = true -> int4 inputStreamId = true ->
        existsb (fun os => os_id os =? outputStreamId) (output_streams d)
        = true ->
        existsb (fun ist => ist_id ist =? inputStreamId) (input_streams d)
        = true ->
        existsb (fun sm => (sm_output_stream_id sm =? outputStreamId)
                           && (sm_slot_position sm =? slot))
                (stream_mappings d) = false ->
        exists d',
          insertMapping d {| body_outputStreamId := Some outputStreamId;
                             body_inputStreamId := Some inputStreamId;
                             body_slotPosition := Some slot |} = Some d'
          /\ stream_mappings d'
             = (stream_mappings d
                ++ [{| sm_output_stream_id := outputStreamId;
                       sm_input_stream_id := inputStreamId;
                       sm_slot_position := slot |}])%list)
  /\ (forall (d : Database) (body : CreateMappingBody) (slot : Z),
        body_slotPosition body = Some slot -> 2 ^ 31 <= slot ->
        insertMapping d body = None).
Proof.
  split; [|split; [|split; [|split]]].
  - intros config first rest W H i mapping Hm Hres HW HH HR HC Hnth Hs Hy.
    assert (Hrow : gridRows first <= slotPosition mapping / gridCols first).
    { apply Z.div_le_lower_bound; lia. }
    split.
    { destruct (renderFilter_known config (Int W) (Int H))
        as [filter Hfilter];
        [rewrite Hres; now apply canvasSize_intToString
        |discriminate|discriminate|].
      exists filter; split; [|exact Hfilter].
      rewrite buildFilterComplex_renders by congruence.
      now rewrite Hfilter. }
    split; [|exact Hrow].
    assert (H31 : 2 ^ 31 < 2 ^ 53) by reflexivity.
    apply layoutRects_nth with (rest := rest); auto; lia.
  - intros body slot Hslot Hout.
    unfold accepted, validateCreateMapping.
    rewrite Hslot.
    assert (Hbad :
              (if negb (safeInteger slot)
               then [{| field := "slotPosition"; rule := "number.unsafe" |}]
               else if slot <? 0
                    then [{| field := "slotPosition"; rule := "number.min" |}]
                    else [])
              <> []).
    { unfold safeInteger.
      destruct Hout as [Hneg|Hbig].
      - destruct (negb _); [discriminate|].
        destruct (Z.ltb_spec slot 0); [discriminate|lia].
      - destruct (Z.leb_spec slot (2 ^ 53 - 1)); [lia|].
        rewrite andb_false_r; discriminate. }
    destruct (required "outputStreamId" (body_outputStreamId body)); cbn;
      [|reflexivity].
    destruct (required "inputStreamId" (body_inputStreamId body)); cbn;
      [|reflexivity].
    match goal with
    | |- match ?errors with _ => _ end = _ =>
        destruct errors; [contradiction|reflexivity]
    end.
  - intros outputStreamId inputStreamId slot Hout Hin Hslot.
    unfold accepted, validateCreateMapping, required; cbn.
    rewrite Hout, Hin; cbn.
    assert (Hsafe : safeInteger slot = true).
    { unfold safeInteger.
      assert (0 < 2 ^ 53 - 1) by reflexivity.
      apply andb_true_iff; split; apply Z.leb_le; lia. }
    rewrite Hsafe; cbn.
    destruct (Z.ltb_spec slot 0); [lia|reflexivity].
  - intros d outputStreamId inputStreamId slot Hslot Hout Hin Hos Hist Hfree.
    unfold insertMapping; cbn.
    assert (Hs : int4 slot = true).
    { unfold int4.
      apply andb_true_iff; split; [apply Z.leb_le|apply Z.ltb_lt]; lia. }
    rewrite Hout, Hin, Hs, Hos, Hist, Hfree; cbn.
    eexists; split; reflexivity.
  - intros d body slot Hslot Hbig.
    unfold insertMapping; rewrite Hslot.
    destruct (body_outputStreamId body); [|reflexivity].
    destruct (body_inputStreamId body); [|reflexivity].
    assert (Hs : int4 slot = false).
    { unfold int4.
      destruct (Z.ltb_spec slot (2 ^ 31)); [lia|].
      apply andb_false_r. }
    rewrite Hs, andb_false_r; reflexivity.
Qed.

(** [out_of_grid_slot_placed] at the 2x2 grid with a mapping to slot 7: the
    rectangle starts at (960, 1620), under the 1080 lines of the canvas. *)
Lemma out_of_grid_slot_placed_witness :
  nth_error (layoutRects offGrid) 0
  = Some {| x := Int (7 mod 2 * (1920 / 2)); y := Int (7 / 2 * (1080 / 2));
            w := Int (1920 / 2); h := Int (1080 / 2) |}
  /\ 2 <= 7 / 2.
Proof.
  refine (proj2 (proj1 out_of_grid_slot_placed offGrid (camera 7) [] 1920 1080
                   0%nat (camera 7) _ _ _ _ _ _ _ _ _)).
  - reflexivity.
  - vm_compute; reflexivity.
  - split; [discriminate|reflexivity].
  - split; [discriminate|reflexivity].
  - split; reflexivity.
  - split; reflexivity.
  - reflexivity.
  - split; [discriminate|reflexivity].
  - reflexivity.
Defined.

(* ================================================================= *)
(** * Properties of the supervisor *)

(** C9. Stopping a job that the registry does not track changes nothing: no
    signal is sent, the registry and every persisted field stay as they
    were. *)
Theorem stop_untracked_is_noop :
  forall (w : World) (outputStreamId : Z),
    mapGet (activeStreams w) outputStreamId = None ->
    stopOutputStream outputStreamId w = (Ok tt, w).
Proof.
  intros w outputStreamId Hnone.
  unfold stopOutputStream, bind, get.
  now rewrite Hnone.
Qed.

(** [stop_untracked_is_noop] right after start-up, when nothing is tracked. *)
Lemma stop_untracked_is_noop_witness :
  stopOutputStream 1 (boot studio 8554 [viewer])
  = (Ok tt, boot studio 8554 [viewer]).
Proof.
  apply (stop_untracked_is_noop (boot studio 8554 [viewer]) 1).
  reflexivity.
Defined.

(** ** The registry *)

Lemma mapGet_mapDelete_same {V : Type} (m : list (Z * V)) (key : Z) :
  mapGet (mapDelete m key) key = None.
Proof.
  induction m as [|[k v] rest IH]; cbn; [reflexivity|].
  destruct (Z.eqb_spec k key) as [->|Hne]; cbn; [exact IH|].
  destruct (Z.eqb_spec k key); [contradiction|exact IH].
Qed.

Lemma mapGet_mapDelete_other {V : Type} (m : list (Z * V)) (key other : Z) :
  other <> key -> mapGet (mapDelete m key) other = mapGet m other.
Proof.
  intro Hother; unfold mapDelete.
  induction m as [|[k v] rest IH]; cbn; [reflexivity|].
  destruct (Z.eqb_spec k key) as [->|Hne]; cbn.
  - destruct (Z.eqb_spec key other); [congruence|exact IH].
  - now rewrite IH.
Qed.

Lemma mapGet_mapSet_same {V : Type} (m : list (Z * V)) (key : Z) (value : V) :
  mapGet (mapSet m key value) key = Some value.
Proof.
  induction m as [|[k v] rest IH]; cbn.
  - now rewrite Z.eqb_refl.
  - destruct (Z.eqb_spec k key) as [->|Hne]; cbn.
    + now rewrite Z.eqb_refl.
    + destruct (Z.eqb_spec k key); [contradiction|exact IH].
Qed.

(** How often a key occurs among the keys of a map. *)
Lemma mapSet_absent_keys {V : Type} (m : list (Z * V)) (key : Z) (value : V) :
  mapGet m key = None ->
  mapKeys (mapSet m key value) = (mapKeys m ++ [key])%list.
Proof.
  induction m as [|[k v] rest IH]; cbn; [reflexivity|].
  destruct (Z.eqb_spec k key); [discriminate|].
  intro Hnone; unfold mapKeys in *; cbn.
  now rewrite IH.
Qed.

Lemma mapDelete_keys_without {V : Type} (m : list (Z * V)) (key : Z) :
  filter (fun k => k =? key) (mapKeys (mapDelete m key)) = [].
Proof.
  induction m as [|[k v] rest IH]; cbn; [reflexivity|].
  destruct (Z.eqb_spec k key) as [->|Hne]; cbn; [exact IH|].
  destruct (Z.eqb_spec k key); [contradiction|exact IH].
Qed.

(** ** Stopping *)

Lemma stop_when_untracked (w : World) (outputStreamId : Z) :
  mapGet (activeStreams w) outputStreamId = None ->
  stopOutputStream outputStreamId w = (Ok tt, w).
Proof.
  intro Hnone.
  unfold stopOutputStream, bind, get.
  now rewrite Hnone.
Qed.

Lemma stop_when_tracked (w : World) (outputStreamId : Z)
    (process : ChildProcess) :
  mapGet (activeStreams w) outputStreamId = Some process ->
  stopOutputStream outputStreamId w
  = (Ok tt,
     {| activeStreams := mapDelete (activeStreams w) outputStreamId;
        basePort := basePort w;
        database := updateOutputStream (database w) outputStreamId setStopped;
        spawned := spawned w;
        signals := signals w ++ [(pid process, "SIGTERM")];
        closed := closed w;
        clients := clients w |}).
Proof.
  intro Hsome.
  unfold stopOutputStream, bind, get.
  now rewrite Hsome.
Qed.

(** After [stopOutputStream] the job is untracked, whatever it was before. *)
Lemma stop_untracks (w : World) (outputStreamId : Z) :
  mapGet (activeStreams (snd (stopOutputStream outputStreamId w)))
         outputStreamId = None.
Proof.
  destruct (mapGet (activeStreams w) outputStreamId) as [process|] eqn:Hget.
  - rewrite (stop_when_tracked _ _ _ Hget); cbn.
    apply mapGet_mapDelete_same.
  - now rewrite (stop_when_untracked _ _ Hget).
Qed.

Lemma stop_keeps_spawned (w : World) (outputStreamId : Z) :
  spawned (snd (stopOutputStream outputStreamId w)) = spawned w.
Proof.
  destruct (mapGet (activeStreams w) outputStreamId) as [process|] eqn:Hget.
  - now rewrite (stop_when_tracked _ _ _ Hget).
  - now rewrite (stop_when_untracked _ _ Hget).
Qed.

(** An [UPDATE] that leaves a column alone leaves it alone in every row. *)
Lemma update_keeps {A : Type} (f : OutputStreamRow -> A) (d : Database)
    (outputStreamId : Z) (change : OutputStreamRow -> OutputStreamRow) :
  (forall os, f (change os) = f os) ->
  map f (output_streams (updateOutputStream d outputStreamId change))
  = map f (output_streams d).
Proof.
  intro Hsame; cbn.
  rewrite map_map; apply map_ext; intro os.
  destruct (os_id os =? outputStreamId); [apply Hsame|reflexivity].
Qed.

Lemma updated_row (d : Database) (outputStreamId : Z)
    (change : OutputStreamRow -> OutputStreamRow) (r : OutputStreamRow) :
  (forall os, os_id (change os) = os_id os) ->
  In r (output_streams (updateOutputStream d outputStreamId change)) ->
  os_id r = outputStreamId ->
  exists os, In os (output_streams d) /\ os_id os = outputStreamId
             /\ r = change os.
Proof.
  intros Hid Hin Hr; cbn in Hin.
  apply in_map_iff in Hin; destruct Hin as [os [Heq Hin]].
  exists os; split; [exact Hin|].
  destruct (Z.eqb_spec (os_id os) outputStreamId) as [Hos|Hos].
  - now split.
  - subst r; contradiction.
Qed.

(** What [stopOutputStream] leaves alone, tracked or not. *)
Lemma stop_frame (w : World) (outputStreamId : Z) :
  let w' := snd (stopOutputStream outputStreamId w) in
  spawned w' = spawned w /\ closed w' = closed w /\ clients w' = clients w
  /\ basePort w' = basePort w
  /\ map os_output_port (output_streams (database w'))
     = map os_output_port (output_streams (database w))
  /\ map os_output_url (output_streams (database w'))
     = map os_output_url (output_streams (database w)).
Proof.
  destruct (mapGet (activeStreams w) outputStreamId) as [process|] eqn:Hget.
  - rewrite (stop_when_tracked _ _ _ Hget); cbn [snd].
    cbn [spawned closed clients basePort database].
    repeat split; now apply update_keeps.
  - rewrite (stop_when_untracked _ _ Hget); cbn [snd].
    repeat split.
Qed.

(** ** The port scan *)

Lemma mapiFrom_index {A B : Type} (f : nat -> B) (xs : list A) (start : nat) :
  mapiFrom start (fun index _ => f index) xs
  = map f (seq start (List.length xs)).
Proof.
  revert start; induction xs as [|a rest IH]; intro start; cbn.
  - reflexivity.
  - now rewrite IH.
Qed.

(** The ports [getNextAvailablePort] takes as used: as many as there are
    tracked processes, counted up from the base port. *)
Lemma usedPorts_counts (w : World) :
  usedPorts w
  = map (fun i => basePort w + Z.of_nat i)
        (seq 0 (List.length (activeStreams w))).
Proof.
  unfold usedPorts, mapi, mapValues.
  now rewrite mapiFrom_index, length_map.
Qed.

Lemma includes_counted (base : Z) (n i : nat) :
  includes (map (fun j => base + Z.of_nat j) (seq 0 n)) (base + Z.of_nat i)
  = (i <? n)%nat.
Proof.
  unfold includes.
  destruct (Nat.ltb_spec i n) as [Hlt|Hge].
  - apply existsb_exists.
    exists (base + Z.of_nat i); split; [|apply Z.eqb_refl].
    apply in_map_iff; exists i; split; [reflexivity|].
    apply in_seq; lia.
  - apply not_true_is_false; intro Hex.
    apply existsb_exists in Hex.
    destruct Hex as [port [Hin Heq]].
    apply in_map_iff in Hin; destruct Hin as [j [<- Hj]].
    apply in_seq in Hj.
    apply Z.eqb_eq in Heq; lia.
Qed.

(** The first index from [start] on that is at least [n]. *)
Lemma find_from (n len start : nat) :
  find (fun i => negb (i <? n)%nat) (seq start len)
  = if (Nat.max start n <? start + len)%nat then Some (Nat.max start n)
    else None.
Proof.
  revert start; induction len as [|len IH]; intro start; cbn [seq find].
  - destruct (Nat.ltb_spec (Nat.max start n) (start + 0)); [lia|reflexivity].
  - destruct (Nat.ltb_spec start n) as [Hlt|Hge]; cbn [negb].
    + rewrite IH.
      replace (Nat.max (S start) n) with (Nat.max start n) by lia.
      replace (S start + len)%nat with (start + S len)%nat by lia.
      reflexivity.
    + replace (Nat.max start n) with start by lia.
      destruct (Nat.ltb_spec start (start + S len)); [reflexivity|lia].
Qed.

Lemma find_map {A B : Type} (p : B -> bool) (f : A -> B) (xs : list A) :
  find p (map f xs) = option_map f (find (fun a => p (f a)) xs).
Proof.
  induction xs as [|a rest IH]; cbn; [reflexivity|].
  destruct (p (f a)); [reflexivity|exact IH].
Qed.

Lemma find_ext {A : Type} (p q : A -> bool) (xs : list A) :
  (forall a, p a = q a) -> find p xs = find q xs.
Proof.
  intro Hpq; induction xs as [|a rest IH]; cbn; [reflexivity|].
  now rewrite Hpq, IH.
Qed.

(** What [getNextAvailablePort] answers: the base port plus the number of
    tracked processes, or the error once a thousand are tracked.  The ports
    those processes publish on play no part. *)
Lemma getNextAvailablePort_counts (w : World) :
  getNextAvailablePort w
  = if (List.length (activeStreams w) <? 1000)%nat
    then Ok (basePort w + Z.of_nat (List.length (activeStreams w)))
    else Throw "No available ports for output stream".
Proof.
  unfold getNextAvailablePort, candidatePorts.
  rewrite usedPorts_counts, find_map.
  rewrite (find_ext _ (fun i => negb (i <? List.length (activeStreams w))%nat))
    by (intro i; now rewrite includes_counted).
  rewrite find_from.
  cbn [Nat.max Nat.add].
  destruct (List.length (activeStreams w) <? 1000)%nat; reflexivity.
Qed.
Lemma updateOutputStream_absent (d : Database) (outputStreamId : Z)
    (change : OutputStreamRow -> OutputStreamRow) :
  (forall os, In os (output_streams d) -> os_id os <> outputStreamId) ->
  updateOutputStream d outputStreamId change = d.
Proof.
  intro Habsent; destruct d as [templates outputs inputs maps].
  unfold updateOutputStream, withOutputStreams; cbn in *.
  f_equal.
  rewrite <- (map_id outputs) at 2.
  apply map_ext_in; intros os Hin.
  destruct (Z.eqb_spec (os_id os) outputStreamId) as [Heq|]; [|reflexivity].
  now destruct (Habsent os Hin).
Qed.

Lemma selectOutputStream_absent (d : Database) (outputStreamId : Z) :
  (forall os, In os (output_streams d) -> os_id os <> outputStreamId) ->
  selectOutputStream d outputStreamId = [].
Proof.
  intro Habsent; unfold selectOutputStream.
  induction (output_streams d) as [|os rest IH]; cbn; [reflexivity|].
  destruct (Z.eqb_spec (os_id os) outputStreamId) as [Heq|].
  - destruct (Habsent os); [now left|exact Heq].
  - apply IH; intros os' Hin; apply Habsent; now right.
Qed.

Lemma withDatabase_same (w : World) : withDatabase w (database w) = w.
Proof. now destruct w. Qed.

Lemma getNextAvailablePort_message (w : World) (message : string) :
  getNextAvailablePort w = Throw message ->
  message = "No available ports for output stream".
Proof.
  rewrite getNextAvailablePort_counts.
  destruct (List.length (activeStreams w) <? 1000)%nat; [discriminate|].
  now intros [= <-].
Qed.

Section StartProperties.

Variable withCredentials : string -> string -> string -> result string.

(** The launch throws, in every world and for every configuration, and
    leaves the world as it was. *)
Lemma launch_throws (config : OutputStreamConfig) (w : World) :
  buildFFmpegProcess config w = (Throw accessBeforeInitialization, w).
Proof. reflexivity. Qed.

Lemma buildMappings_message (stream : OutputStreamRow * LayoutTemplateRow)
    (rows : list (StreamMappingRow * InputStreamRow)) (message : string) :
  buildMappings withCredentials stream rows = Throw message ->
  exists baseUrl username password,
    withCredentials baseUrl username password = Throw message.
Proof.
  induction rows as [|[sm ist] rest IH]; cbn; [discriminate|].
  destruct (buildRtspUrl withCredentials (ist_rtsp_url ist)
              (ist_username ist) (ist_password ist)) as [url|m] eqn:Hurl.
  - destruct (buildMappings withCredentials stream rest) as [others|m];
      [discriminate|].
    intros [= <-]; now apply IH.
  - intros [= <-].
    unfold buildRtspUrl in Hurl.
    destruct (falsy (ist_username ist) || falsy (ist_password ist));
      [discriminate|].
    eexists; eexists; eexists; exact Hurl.
Qed.

(** Why the configuration of a job does not load. *)
Lemma loadConfig_message (w : World) (outputStreamId : Z) (message : string) :
  loadConfig withCredentials outputStreamId w = Throw message ->
  message = "Output stream not found"
  \/ message = "No input streams mapped to this output"
  \/ message = "No available ports for output stream"
  \/ exists baseUrl username password,
       withCredentials baseUrl username password = Throw message.
Proof.
  unfold loadConfig.
  destruct (selectOutputStream (database w) outputStreamId)
    as [|stream others]; [intros [= <-]; now left|].
  destruct (selectMappings (database w) outputStreamId) as [|row rows];
    [intros [= <-]; right; now left|].
  destruct (resolvePort (fst stream) w) as [port|m] eqn:Hport.
  - destruct (buildMappings withCredentials stream (row :: rows))
      as [inputs|m] eqn:Hinputs; [discriminate|].
    intros [= <-]; right; right; right.
    now apply (buildMappings_message stream (row :: rows)).
  - intros [= <-]; right; right; left.
    unfold resolvePort in Hport.
    destruct (os_output_port (fst stream)) as [held|].
    + destruct (held =? 0); [|discriminate].
      now apply (getNextAvailablePort_message w).
    + now apply (getNextAvailablePort_message w).
Qed.

(** The ways through [startOutputStream].  When the configuration does not
    load, the request throws what the load threw.  When it loads, the job is
    stopped if it is tracked, the launch throws, and the request throws what
    the launch threw.  Either way the [catch] block records the message. *)
Lemma start_outcome (w : World) (outputStreamId : Z) :
  startOutputStream withCredentials outputStreamId w
  = match loadConfig withCredentials outputStreamId w with
    | Throw message =>
        (Throw message,
         withDatabase w
           (updateOutputStream (database w) outputStreamId
                               (setError message)))
    | Ok config =>
        let w1 := snd (stopOutputStream outputStreamId w) in
        (Throw accessBeforeInitialization,
         withDatabase w1
           (updateOutputStream (database w1) outputStreamId
                               (setError accessBeforeInitialization)))
    end.
Proof.
  unfold startOutputStream, tryCatch, startBody, loadConfig.
  unfold bind at 1; unfold get at 1.
  destruct (selectOutputStream (database w) outputStreamId)
    as [|stream others]; [reflexivity|].
  destruct (selectMappings (database w) outputStreamId) as [|row rows];
    [reflexivity|].
  unfold bind at 1; unfold lift at 1.
  destruct (resolvePort (fst stream) w) as [port|message]; [|reflexivity].
  unfold bind at 1; unfold lift at 1.
  destruct (buildMappings withCredentials stream (row :: rows))
    as [inputs|message]; [|reflexivity].
  assert (Hstop :
            (if mapHas (activeStreams w) outputStreamId
             then stopOutputStream outputStreamId else ret tt) w
            = (Ok tt, snd (stopOutputStream outputStreamId w))).
  { unfold mapHas.
    destruct (mapGet (activeStreams w) outputStreamId) as [old|] eqn:Hget.
    - now rewrite (stop_when_tracked _ _ _ Hget).
    - now rewrite (stop_when_untracked _ _ Hget). }
  unfold bind at 1; rewrite Hstop.
  reflexivity.
Qed.

(** What a start request leaves alone, whatever becomes of it. *)
Lemma start_frame (w : World) (outputStreamId : Z) :
  let w' := snd (startOutputStream withCredentials outputStreamId w) in
  spawned w' = spawned w /\ closed w' = closed w /\ clients w' = clients w
  /\ basePort w' = basePort w
  /\ map os_output_port (output_streams (database w'))
     = map os_output_port (output_streams (database w))
  /\ map os_output_url (output_streams (database w'))
     = map os_output_url (output_streams (database w))
  /\ (activeStreams w = [] -> activeStreams w' = [] /\ signals w' = signals w).
Proof.
  rewrite start_outcome.
  destruct (loadConfig withCredentials outputStreamId w) as [config|message].
  - cbv zeta; cbn [snd].
    destruct (stop_frame w outputStreamId)
      as [Hspawned [Hclosed [Hclients [Hbase [Hports Hurls]]]]].
    cbn [spawned closed clients basePort database withDatabase].
    split; [exact Hspawned|].
    split; [exact Hclosed|].
    split; [exact Hclients|].
    split; [exact Hbase|].
    split; [now rewrite update_keeps|].
    split; [now rewrite update_keeps|].
    intro Hidle.
    rewrite stop_when_untracked by now rewrite Hidle.
    now split.
  - cbn [snd spawned closed clients basePort database withDatabase
         activeStreams signals].
    repeat split; try now apply update_keeps.
    assumption.
Qed.

(** C7. A start request for a job that has no mapping throws the
    no-mappings error.  Nothing was acquired or spawned on the way: the
    registry, the processes, the signals and the observers are as before,
    and so are the port and the address of every job.  What the request
    leaves is the record of the failure: the job's status is [error] and its
    [last_error] is the message. *)
Theorem start_without_mappings_fails :
  forall (w : World) (outputStreamId : Z)
         (stream : OutputStreamRow * LayoutTemplateRow)
         (others : list (OutputStreamRow * LayoutTemplateRow)),
    selectOutputStream (database w) outputStreamId = stream :: others ->
    selectMappings (database w) outputStreamId = [] ->
    let message := "No input streams mapped to this output" in
    let outcome := startOutputStream withCredentials outputStreamId w in
    fst outcome = Throw message
    /\ activeStreams (snd outcome) = activeStreams w
    /\ spawned (snd outcome) = spawned w
    /\ signals (snd outcome) = signals w
    /\ closed (snd outcome) = closed w
    /\ clients (snd outcome) = clients w
    /\ database (snd outcome)
       = updateOutputStream (database w) outputStreamId (setError message)
    /\ map os_output_port (output_streams (database (snd outcome)))
       = map os_output_port (output_streams (database w))
    /\ map os_output_url (output_streams (database (snd outcome)))
       = map os_output_url (output_streams (database w)).
Proof.
  intros w outputStreamId stream others Hstream Hrows message outcome.
  assert (Hrun : outcome
                 = (Throw message,
                    withDatabase w
                      (updateOutputStream (database w) outputStreamId
                                          (setError message)))).
  { unfold outcome, startOutputStream, tryCatch, startBody.
    unfold bind at 1; unfold get at 1.
    rewrite Hstream, Hrows.
    reflexivity. }
  rewrite Hrun; cbn [fst snd].
  repeat (split; [reflexivity|]).
  cbn [database withDatabase updateOutputStream output_streams
       withOutputStreams].
  rewrite !map_map.
  split; apply map_ext; intro os;
    destruct (os_id os =? outputStreamId); reflexivity.
Qed.






End StartProperties.

(** [start_without_mappings_fails] on job 4 of the studio, which has no
    source. *)
Lemma start_without_mappings_fails_witness :
  fst (startOutputStream urlClass 4 (boot studio 8554 [viewer]))
  = Throw "No input streams mapped to this output".
Proof.
  refine (proj1 (start_without_mappings_fails urlClass
                   (boot studio 8554 [viewer]) 4 _ [] _ _)).
  - reflexivity.
  - reflexivity.
Defined.




(** ** The monitoring round *)

(** C8, as stated, fails: the message a connected observer receives in a
    monitoring round does not have the snapshot shape. *)
Lemma status_message_is_not_a_snapshot :
  ~ (forall (w : World) (now : string) (c : Client),
        In c (clients w) -> isOpen c = true ->
        exists c' message,
          In c' (clients (snd (monitorStreams now w)))
          /\ sent c' = (sent c ++ [message])%list
          /\ snapshotShaped message = true).
Proof.
  intro Hclaim.
  destruct (Hclaim (boot studio 8554 [viewer]) "2024-05-01T10:00:00.000Z"
              viewer) as [c' [message [Hin [Hsent Hshape]]]].
  - left; reflexivity.
  - reflexivity.
  - cbn in Hin; destruct Hin as [<-|[]].
    cbn in Hsent; injection Hsent as <-.
    vm_compute in Hshape; discriminate.
Qed.

(** C8, amended. A monitoring round reads every input stream and every
    output stream from the database and sends one message
    [{type: "stream_status", data: {inputStreams, outputStreams, timestamp}}]
    to every observer whose socket is open; the other observers and the rest
    of the world are left as they were.  The message does not have the
    snapshot shape. *)
Theorem monitoring_round_broadcasts :
  forall (w : World) (now : string),
    let outcome := monitorStreams now w in
    let message :=
      JObject
        [("type", JString "stream_status");
         ("data",
          JObject
            [("inputStreams",
              JArray (map inputRow (input_streams (database w))));
             ("outputStreams",
              JArray (map outputRow (output_streams (database w))));
             ("timestamp", JString now)])] in
    fst outcome = Ok tt
    /\ List.length (clients (snd outcome)) = List.length (clients w)
    /\ (forall (i : nat) (c : Client),
          nth_error (clients w) i = Some c ->
          exists c',
            nth_error (clients (snd outcome)) i = Some c'
            /\ userId c' = userId c
            /\ userRole c' = userRole c
            /\ readyState c' = readyState c
            /\ sent c' = if isOpen c then (sent c ++ [message])%list
                         else sent c)
    /\ database (snd outcome) = database w
    /\ activeStreams (snd outcome) = activeStreams w
    /\ spawned (snd outcome) = spawned w
    /\ signals (snd outcome) = signals w
    /\ snapshotShaped message = false.
Proof.
  intros w now outcome message.
  unfold outcome, monitorStreams, broadcast, bind, get, modify; cbn.
  split; [reflexivity|].
  split; [apply length_map|].
  split; [|repeat split].
  intros i c Hnth.
  rewrite nth_error_map, Hnth; cbn.
  fold message.
  destruct (isOpen c) eqn:Hopen.
  - exists (send message c); repeat split.
  - exists c; repeat split.
Qed.

(** ** Runs from start-up *)

Section RunProperties.

Variable withCredentials : string -> string -> string -> result string.

(** A world in which nothing is tracked, spawned, signalled or exited stays
    so under every event, and no event changes the base port or the port or
    the address of a row. *)
Lemma handle_idle (e : Event) (w : World) :
  activeStreams w = [] -> spawned w = [] -> signals w = [] ->
  closed w = [] ->
  let w' := snd (handle withCredentials e w) in
  activeStreams w' = [] /\ spawned w' = [] /\ signals w' = []
  /\ closed w' = [] /\ basePort w' = basePort w
  /\ map os_output_port (output_streams (database w'))
     = map os_output_port (output_streams (database w))
  /\ map os_output_url (output_streams (database w'))
     = map os_output_url (output_streams (database w)).
Proof.
  intros Hactive Hspawned Hsignals Hclosed.
  destruct e as [outputStreamId|outputStreamId|pid code|now]; cbn [handle].
  - destruct (start_frame withCredentials w outputStreamId)
      as [Hs [Hc [_ [Hb [Hports [Hurls Hidle]]]]]].
    destruct (Hidle Hactive) as [Ha Hsig].
    cbv zeta.
    rewrite Ha, Hs, Hsig, Hc, Hb, Hports, Hurls.
    repeat split; assumption.
  - rewrite stop_when_untracked by now rewrite Hactive.
    cbn [snd]; repeat split; assumption.
  - unfold deliverClose, bind, get; rewrite Hspawned.
    destruct pid; cbn [nth_error snd]; repeat split; assumption.
  - cbn; repeat split; assumption.
Qed.

Lemma run_idle (events : list Event) :
  forall w : World,
    activeStreams w = [] -> spawned w = [] -> signals w = [] ->
    closed w = [] ->
    let w' := run withCredentials events w in
    activeStreams w' = [] /\ spawned w' = [] /\ signals w' = []
    /\ closed w' = [] /\ basePort w' = basePort w
    /\ map os_output_port (output_streams (database w'))
       = map os_output_port (output_streams (database w))
    /\ map os_output_url (output_streams (database w'))
       = map os_output_url (output_streams (database w)).
Proof.
  induction events as [|e rest IH]; intros w Hactive Hspawned Hsignals Hclosed.
  - cbn; repeat split; assumption.
  - cbn [run].
    destruct (handle_idle e w Hactive Hspawned Hsignals Hclosed)
      as [Ha [Hs [Hsig [Hc [Hb [Hports Hurls]]]]]].
    destruct (IH _ Ha Hs Hsig Hc)
      as [Ha' [Hs' [Hsig' [Hc' [Hb' [Hports' Hurls']]]]]].
    cbv zeta.
    rewrite Ha', Hs', Hsig', Hc', Hb', Hports', Hurls'.
    repeat split; assumption.
Qed.


(** X13. From start-up on, whatever the requests, no process is spawned, no
    job is tracked, no signal is sent; the rows keep the port and the
    address they had, so a row that had none never gets one; the port scan
    answers the base port every time; and a stop request changes nothing. *)
Theorem nothing_is_ever_launched :
  forall (events : list Event) (d : Database) (port : Z)
         (observers : list Client),
    let w := run withCredentials events (boot d port observers) in
    activeStreams w = [] /\ spawned w = [] /\ signals w = []
    /\ closed w = []
    /\ map os_output_port (output_streams (database w))
       = map os_output_port (output_streams d)
    /\ map os_output_url (output_streams (database w))
       = map os_output_url (output_streams d)
    /\ getNextAvailablePort w = Ok port
    /\ forall outputStreamId : Z,
         stopOutputStream outputStreamId w = (Ok tt, w).
Proof.
  intros events d port observers w.
  destruct (run_idle events (boot d port observers) eq_refl eq_refl eq_refl
                     eq_refl) as [Ha [Hs [Hsig [Hc [Hb [Hports Hurls]]]]]].
  fold w in Ha, Hs, Hsig, Hc, Hb, Hports, Hurls.
  split; [exact Ha|].
  split; [exact Hs|].
  split; [exact Hsig|].
  split; [exact Hc|].
  split; [exact Hports|].
  split; [exact Hurls|].
  split.
  - rewrite getNextAvailablePort_counts, Ha, Hb; cbn.
    f_equal; lia.
  - intro outputStreamId.
    apply stop_when_untracked; now rewrite Ha.
Qed.



End RunProperties.



(* ================================================================= *)
(** * Further properties of the pipeline description *)

Lemma layoutRects_in_grid (config : OutputStreamConfig)
    (first : StreamMapping) (rest : list StreamMapping) (W H : Z)
    (i : nat) (mapping : StreamMapping) :
  mappings config = first :: rest ->
  resolution config = intToString W ++ "x" ++ intToString H ->
  0 <= W < 2 ^ 53 -> 0 <= H < 2 ^ 53 ->
  0 < gridRows first < 2 ^ 53 -> 0 < gridCols first < 2 ^ 53 ->
  nth_error (mappings config) i = Some mapping ->
  0 <= slotPosition mapping < gridRows first * gridCols first ->
  slotPosition mapping < 2 ^ 53 ->
  exists col row,
    0 <= col < gridCols first /\ 0 <= row < gridRows first
    /\ slotPosition mapping = row * gridCols first + col
    /\ nth_error (layoutRects config) i
       = Some {| x := Int (col * (W / gridCols first));
                 y := Int (row * (H / gridRows first));
                 w := Int (W / gridCols first);
                 h := Int (H / gridRows first) |}.
Proof.
  intros Hm Hres HW HH HR HC Hnth Hs Hsafe.
  exists (slotPosition mapping mod gridCols first),
         (slotPosition mapping / gridCols first).
  split; [apply Z.mod_pos_bound; lia|].
  assert (Hrow : 0 <= slotPosition mapping / gridCols first < gridRows first).
  { split; [apply Z.div_pos; lia|].
    apply Z.div_lt_upper_bound; lia. }
  split; [exact Hrow|].
  split.
  { rewrite (Z.div_mod (slotPosition mapping) (gridCols first)) at 1 by lia.
    lia. }
  apply layoutRects_nth with (rest := rest); auto; try lia.
  assert (Hh : 0 <= H / gridRows first) by (apply Z.div_pos; lia).
  assert (HHR : gridRows first * (H / gridRows first) <= H)
    by (apply Z.mul_div_le; lia).
  nia.
Qed.

(** X2. On a grid of positive dimensions over a canvas of W by H, all below
    2^53, the rectangle of a mapping to a slot of the grid lies inside the
    canvas. *)
Theorem in_grid_cell_inside_canvas :
  forall (config : OutputStreamConfig) (first : StreamMapping)
         (rest : list StreamMapping) (W H : Z) (i : nat)
         (mapping : StreamMapping),
    mappings config = first :: rest ->
    resolution config = intToString W ++ "x" ++ intToString H ->
    0 <= W < 2 ^ 53 -> 0 <= H < 2 ^ 53 ->
    0 < gridRows first < 2 ^ 53 -> 0 < gridCols first < 2 ^ 53 ->
    nth_error (mappings config) i = Some mapping ->
    0 <= slotPosition mapping < gridRows first * gridCols first ->
    slotPosition mapping < 2 ^ 53 ->
    exists left top width height,
      nth_error (layoutRects config) i
      = Some {| x := Int left; y := Int top;
                w := Int width; h := Int height |}
      /\ 0 <= left /\ left + width <= W
      /\ 0 <= top /\ top + height <= H.
Proof.
  intros config first rest W H i mapping Hm Hres HW HH HR HC Hnth Hs Hsafe.
  destruct (layoutRects_in_grid config first rest W H i mapping
              Hm Hres HW HH HR HC Hnth Hs Hsafe)
    as [col [row [Hcol [Hrow [_ Hrect]]]]].
  exists (col * (W / gridCols first)), (row * (H / gridRows first)),
         (W / gridCols first), (H / gridRows first).
  split; [exact Hrect|].
  assert (Hw : 0 <= W / gridCols first) by (apply Z.div_pos; lia).
  assert (Hh : 0 <= H / gridRows first) by (apply Z.div_pos; lia).
  assert (HWC : gridCols first * (W / gridCols first) <= W)
    by (apply Z.mul_div_le; lia).
  assert (HHR : gridRows first * (H / gridRows first) <= H)
    by (apply Z.mul_div_le; lia).
  repeat split; nia.
Qed.

(** [in_grid_cell_inside_canvas] on the 2x2 scenario, slot 3. *)
Lemma in_grid_cell_inside_canvas_witness :
  exists left top width height,
    nth_error (layoutRects grid2x2) 3
    = Some {| x := Int left; y := Int top; w := Int width; h := Int height |}
    /\ 0 <= left /\ left + width <= 1920
    /\ 0 <= top /\ top + height <= 1080.
Proof.
  refine (in_grid_cell_inside_canvas grid2x2 (camera 0) (map camera [1; 2; 3])
            1920 1080 3%nat (camera 3) _ _ _ _ _ _ _ _ _).
  - reflexivity.
  - vm_compute; reflexivity.
  - split; [discriminate|reflexivity].
  - split; [discriminate|reflexivity].
  - split; reflexivity.
  - split; reflexivity.
  - reflexivity.
  - cbn; lia.
  - reflexivity.
Defined.

(** X3. Two mappings of one configuration to different slots of the grid get
    rectangles that do not overlap: one lies to the side of the other, or
    above it.  The numbers are below 2^53. *)
Theorem in_grid_cells_disjoint :
  forall (config : OutputStreamConfig) (first : StreamMapping)
         (rest : list StreamMapping) (W H : Z) (i j : nat)
         (m1 m2 : StreamMapping),
    mappings config = first :: rest ->
    resolution config = intToString W ++ "x" ++ intToString H ->
    0 <= W < 2 ^ 53 -> 0 <= H < 2 ^ 53 ->
    0 < gridRows first < 2 ^ 53 -> 0 < gridCols first < 2 ^ 53 ->
    nth_error (mappings config) i = Some m1 ->
    nth_error (mappings config) j = Some m2 ->
    0 <= slotPosition m1 < gridRows first * gridCols first ->
    0 <= slotPosition m2 < gridRows first * gridCols first ->
    slotPosition m1 < 2 ^ 53 -> slotPosition m2 < 2 ^ 53 ->
    slotPosition m1 <> slotPosition m2 ->
    exists x1 y1 x2 y2 width height,
      nth_error (layoutRects config) i
      = Some {| x := Int x1; y := Int y1; w := Int width; h := Int height |}
      /\ nth_error (layoutRects config) j
         = Some {| x := Int x2; y := Int y2;
                   w := Int width; h := Int height |}
      /\ (x1 + width <= x2 \/ x2 + width <= x1
          \/ y1 + height <= y2 \/ y2 + height <= y1).
Proof.
  intros config first rest W H i j m1 m2 Hm Hres HW HH HR HC
         Hnth1 Hnth2 Hs1 Hs2 Hsafe1 Hsafe2 Hdiff.
  destruct (layoutRects_in_grid config first rest W H i m1
              Hm Hres HW HH HR HC Hnth1 Hs1 Hsafe1)
    as [c1 [r1 [Hc1 [Hr1 [Heq1 Hrect1]]]]].
  destruct (layoutRects_in_grid config first rest W H j m2
              Hm Hres HW HH HR HC Hnth2 Hs2 Hsafe2)
    as [c2 [r2 [Hc2 [Hr2 [Heq2 Hrect2]]]]].
  exists (c1 * (W / gridCols first)), (r1 * (H / gridRows first)),
         (c2 * (W / gridCols first)), (r2 * (H / gridRows first)),
         (W / gridCols first), (H / gridRows first).
  split; [exact Hrect1|].
  split; [exact Hrect2|].
  assert (Hw : 0 <= W / gridCols first) by (apply Z.div_pos; lia).
  assert (Hh : 0 <= H / gridRows first) by (apply Z.div_pos; lia).
  assert (Hcase : c1 < c2 \/ c2 < c1 \/ r1 < r2 \/ r2 < r1).
  { destruct (Z.eq_dec c1 c2) as [Hc|Hc]; [|lia].
    destruct (Z.eq_dec r1 r2) as [Hr|Hr]; [|lia].
    exfalso; apply Hdiff; rewrite Heq1, Heq2; subst; reflexivity. }
  destruct Hcase as [Hlt|[Hlt|[Hlt|Hlt]]].
  - left; nia.
  - right; left; nia.
  - right; right; left; nia.
  - right; right; right; nia.
Qed.

(** [in_grid_cells_disjoint] on the 2x2 scenario, slots 1 and 2. *)
Lemma in_grid_cells_disjoint_witness :
  exists x1 y1 x2 y2 width height,
    nth_error (layoutRects grid2x2) 1
    = Some {| x := Int x1; y := Int y1; w := Int width; h := Int height |}
    /\ nth_error (layoutRects grid2x2) 2
       = Some {| x := Int x2; y := Int y2; w := Int width; h := Int height |}
    /\ (x1 + width <= x2 \/ x2 + width <= x1
        \/ y1 + height <= y2 \/ y2 + height <= y1).
Proof.
  refine (in_grid_cells_disjoint grid2x2 (camera 0) (map camera [1; 2; 3])
            1920 1080 1%nat 2%nat (camera 1) (camera 2)
            _ _ _ _ _ _ _ _ _ _ _ _ _).
  - reflexivity.
  - vm_compute; reflexivity.
  - split; [discriminate|reflexivity].
  - split; [discriminate|reflexivity].
  - split; reflexivity.
  - split; reflexivity.
  - reflexivity.
  - reflexivity.
  - cbn; lia.
  - cbn; lia.
  - reflexivity.
  - reflexivity.
  - cbn; lia.
Defined.


(* ================================================================= *)
(** * Properties of the created rows *)

Lemma isDigit_not_space (c : ascii) :
  isDigit c = true -> Ascii.eqb c " " = false.
Proof.
  destruct c as [[|] [|] [|] [|] [|] [|] [|] [|]]; intro Hdigit;
    vm_compute in Hdigit; try discriminate; reflexivity.
Qed.

(** A run of digits is read, whatever was read before it. *)
Lemma readDigits_run (s : string) :
  skipDigits s = EmptyString -> forall acc, exists v, readDigits acc s = Some v.
Proof.
  induction s as [|c rest IH]; cbn; intros Hall acc; [eexists; reflexivity|].
  destruct (isDigit c); [|discriminate].
  apply (IH Hall).
Qed.

(** A run of at most 300 digits is read as a number that is finite and not
    negative. *)
Lemma Number_run (s : string) :
  skipDigits s = EmptyString -> (String.length s <= 300)%nat ->
  exists n, 0 <= n /\ Number s = Int n.
Proof.
  intros Hall Hlen.
  destruct (readDigits_run s Hall 0) as [v Hv].
  unfold Number; rewrite Hv.
  apply roundToDouble_finite.
  destruct (readDigits_bound s 0 v ltac:(lia) Hv) as [Hv0 Hv1].
  split; [exact Hv0|].
  apply Z.lt_le_trans with (1 := Hv1).
  apply Z.le_trans with (10 ^ 300); [|now vm_compute].
  rewrite Z.mul_1_l.
  apply Z.pow_le_mono_r; lia.
Qed.

Lemma skipDigits_takeDigits (s : string) :
  skipDigits (takeDigits s) = EmptyString.
Proof.
  induction s as [|c rest IH]; cbn; [reflexivity|].
  destruct (isDigit c) eqn:Hc; cbn; [|reflexivity].
  now rewrite Hc.
Qed.

Lemma length_takeDigits (s : string) :
  (String.length (takeDigits s) <= String.length s)%nat.
Proof.
  induction s as [|c rest IH]; cbn; [lia|].
  destruct (isDigit c); cbn; lia.
Qed.

Lemma length_skipDigits (s : string) :
  (String.length (skipDigits s) <= String.length s)%nat.
Proof.
  induction s as [|c rest IH]; cbn; [lia|].
  destruct (isDigit c); cbn; lia.
Qed.

Lemma split_run (s : string) :
  skipDigits s = EmptyString -> split "x" s = [s].
Proof.
  intro Hall.
  destruct (readDigits_run s Hall 0) as [v Hv].
  now apply (split_digits s 0 v).
Qed.

Lemma split_at_x (s rest : string) :
  skipDigits s = String "x" rest ->
  split "x" s = takeDigits s :: split "x" rest.
Proof.
  induction s as [|c tail IH]; cbn; [discriminate|].
  destruct (isDigit c) eqn:Hc.
  - intro Hskip.
    now rewrite (isDigit_not_x c Hc), (IH Hskip).
  - intro Hskip; injection Hskip as -> ->.
    reflexivity.
Qed.

(** Text of the shape of the pattern, of at most 300 characters, is read as
    a width and a height. *)
Lemma resolutionPattern_canvasSize (s : string) :
  resolutionPattern s = true -> (String.length s <= 300)%nat ->
  exists W H, 0 <= W /\ 0 <= H /\ canvasSize s = (Int W, Int H).
Proof.
  unfold resolutionPattern.
  destruct s as [|c tail]; [discriminate|].
  destruct (isDigit c) eqn:Hc; [|discriminate].
  destruct (skipDigits (String c tail)) as [|sep rest] eqn:Hskip;
    [discriminate|].
  destruct (Ascii.eqb_spec sep "x") as [->|]; [|discriminate].
  destruct rest as [|d more]; [discriminate|].
  cbn [andb].
  destruct (isDigit d) eqn:Hd; [|discriminate].
  cbn [andb]; intros Hend Hlen; apply String.eqb_eq in Hend.
  pose proof (length_takeDigits (String c tail)) as Hwidth.
  pose proof (length_skipDigits (String c tail)) as Hheight.
  rewrite Hskip in Hheight.
  destruct (Number_run (takeDigits (String c tail))
              (skipDigits_takeDigits _)) as [W [HW HnW]]; [lia|].
  destruct (Number_run (String d more) Hend) as [H [HH HnH]];
    [cbn [String.length] in *; lia|].
  exists W, H; split; [exact HW|]; split; [exact HH|].
  unfold canvasSize.
  rewrite (split_at_x _ _ Hskip), (split_run _ Hend).
  cbn [map nth]; now rewrite HnW, HnH.
Qed.

(** Past a run of digits there is a character that is not a space. *)
Lemma allSpaces_run (s : string) :
  skipDigits s = EmptyString ->
  forall n, (n < String.length s)%nat ->
            allSpaces (substring n (String.length s - n) s) = false.
Proof.
  induction s as [|c rest IH]; cbn [skipDigits String.length];
    intros Hall n Hn; [lia|].
  destruct (isDigit c) eqn:Hc; [|discriminate].
  destruct n as [|n].
  - cbn; now rewrite (isDigit_not_space c Hc).
  - cbn [Nat.sub substring]; apply IH; [exact Hall|lia].
Qed.

Lemma allSpaces_pattern (s rest : string) :
  skipDigits s = String "x" rest -> skipDigits rest = EmptyString ->
  forall n, (n < String.length s)%nat ->
            allSpaces (substring n (String.length s - n) s) = false.
Proof.
  induction s as [|c tail IH]; cbn [skipDigits String.length];
    intros Hskip Hrest n Hn; [lia|].
  destruct (isDigit c) eqn:Hc.
  - destruct n as [|n].
    + cbn; now rewrite (isDigit_not_space c Hc).
    + cbn [Nat.sub substring]; apply IH; [exact Hskip|exact Hrest|lia].
  - injection Hskip as -> ->.
    destruct n as [|n]; [reflexivity|].
    cbn [Nat.sub substring]; apply allSpaces_run; [exact Hrest|lia].
Qed.

(** A text of the shape of the pattern is stored as it is, or not at all. *)
Lemma varchar_pattern (n : nat) (s stored : string) :
  resolutionPattern s = true -> varchar n s = Some stored ->
  stored = s /\ (String.length s <= n)%nat.
Proof.
  intros Hpattern; unfold varchar.
  destruct (Nat.leb_spec (String.length s) n) as [Hfits|Hlong];
    [intros [= <-]; now split|].
  assert (Hnot : allSpaces (substring n (String.length s - n) s) = false).
  { unfold resolutionPattern in Hpattern.
    destruct s as [|c tail]; [discriminate|].
    destruct (isDigit c); [|discriminate].
    destruct (skipDigits (String c tail)) as [|sep rest] eqn:Hskip;
      [discriminate|].
    destruct (Ascii.eqb_spec sep "x") as [->|]; [|discriminate].
    destruct rest as [|d more]; [discriminate|].
    cbn [andb] in Hpattern.
    destruct (isDigit d); [|discriminate].
    cbn [andb] in Hpattern; apply String.eqb_eq in Hpattern.
    now apply (allSpaces_pattern _ _ Hskip Hpattern). }
  rewrite Hnot; discriminate.
Qed.

(** X4. An output stream created from a body that passes
    [schemas.createOutputStream] has a resolution that [buildFilterComplex]
    reads as two integers that are not negative, never as NaN, and a
    framerate from 1 to 60; it is created stopped and without a port. *)
Theorem created_stream_is_well_formed :
  forall (newId : Z) (body : CreateOutputStreamBody) (row : OutputStreamRow),
    validateCreateOutputStream body = [] ->
    createdOutputStream newId body = Some row ->
    (exists W H, 0 <= W /\ 0 <= H
                 /\ canvasSize (os_resolution row) = (Int W, Int H))
    /\ 1 <= os_framerate row <= 60
    /\ os_status row = stopped
    /\ os_output_port row = None
    /\ os_id row = newId.
Proof.
  intros newId body row Hvalid Hrow.
  unfold validateCreateOutputStream in Hvalid.
  apply app_eq_nil in Hvalid; destruct Hvalid as [_ Hvalid].
  apply app_eq_nil in Hvalid; destruct Hvalid as [_ Hvalid].
  apply app_eq_nil in Hvalid; destruct Hvalid as [Hres Hvalid].
  apply app_eq_nil in Hvalid; destruct Hvalid as [Hrate _].
  unfold createdOutputStream in Hrow.
  destruct (body_name body) as [label|]; [|discriminate].
  destruct (varchar 255 label) as [storedName|]; [|discriminate].
  match type of Hrow with
  | match varchar 50 ?text with _ => _ end = _ =>
      destruct (varchar 50 text) as [storedResolution|] eqn:Hstored;
      [|discriminate]
  end.
  match type of Hrow with
  | match ?stored with _ => _ end = _ =>
      destruct stored as [storedBitrate|]; [|discriminate]
  end.
  match type of Hrow with
  | (if ?integers then _ else _) = _ => destruct integers; [|discriminate]
  end.
  injection Hrow as <-; cbn.
  split; [|split; [|repeat split]].
  - unfold stringRule in Hres.
    destruct (body_resolution body) as [s|].
    + destruct (String.eqb s EmptyString); [discriminate|].
      cbn in Hres.
      destruct (resolutionPattern s) eqn:Hpattern; [|discriminate].
      destruct (varchar_pattern 50 s storedResolution Hpattern Hstored)
        as [-> Hlen].
      apply resolutionPattern_canvasSize; [exact Hpattern|lia].
    + injection Hstored as <-.
      exists 1920, 1080; repeat split; try lia.
  - destruct (body_framerate body) as [rate|]; [|lia].
    destruct (negb (safeInteger rate)); [discriminate|].
    destruct (Z.ltb_spec rate 1); [discriminate|].
    destruct (Z.ltb_spec 60 rate); [discriminate|].
    destruct (Z.eqb_spec rate 0); lia.
Qed.

(** [created_stream_is_well_formed] on a body with a name, a template and a
    resolution. *)
Lemma created_stream_is_well_formed_witness :
  exists W H,
    0 <= W /\ 0 <= H /\ canvasSize "1280x720" = (Int W, Int H).
Proof.
  refine (proj1 (created_stream_is_well_formed 5
                   {| body_name := Some "lobby";
                      body_layoutTemplateId := Some 2;
                      body_resolution := Some "1280x720";
                      body_framerate := None;
                      body_bitrate := None |}
                   {| os_id := 5; os_name := "lobby";
                      os_layout_template_id := Some 2;
                      os_output_port := None; os_output_url := None;
                      os_resolution := "1280x720"; os_framerate := 25;
                      os_bitrate := "2000k"; os_status := stopped;
                      os_last_error := None |} _ _)).
  - reflexivity.
  - reflexivity.
Defined.


(* ================================================================= *)
(** * Further properties of the supervisor *)

Section StartOutcomes.

Variable withCredentials : string -> string -> string -> result string.

(** X5. [startOutputStream] never succeeds.  It throws, and the message is
    one of: the stream was not found, it has no mapping, no port is left,
    what the URL class threw for a source address, or the [ReferenceError]
    of the launch; every row of the job then has status [error] and that
    message as [last_error].  No process has been spawned and no observer
    has been sent anything. *)
Theorem start_always_fails :
  forall (w : World) (outputStreamId : Z),
    let outcome := startOutputStream withCredentials outputStreamId w in
    exists message : string,
      fst outcome = Throw message
      /\ (message = "Output stream not found"
          \/ message = "No input streams mapped to this output"
          \/ message = "No available ports for output stream"
          \/ message = accessBeforeInitialization
          \/ exists baseUrl username password,
               withCredentials baseUrl username password = Throw message)
      /\ (forall os,
            In os (output_streams (database (snd outcome))) ->
            os_id os = outputStreamId ->
            os_status os = error /\ os_last_error os = Some message)
      /\ spawned (snd outcome) = spawned w
      /\ clients (snd outcome) = clients w.
Proof.
  intros w outputStreamId outcome.
  assert (Hrecorded :
            forall message d os,
              In os (output_streams
                       (updateOutputStream d outputStreamId
                                           (setError message))) ->
              os_id os = outputStreamId ->
              os_status os = error /\ os_last_error os = Some message).
  { intros message d os Hin Hid.
    destruct (updated_row d outputStreamId (setError message) os)
      as [a [_ [_ ->]]]; auto. }
  destruct (start_frame withCredentials w outputStreamId)
    as [Hspawned [_ [Hclients _]]].
  fold outcome in Hspawned, Hclients.
  unfold outcome in *; rewrite start_outcome in *.
  destruct (loadConfig withCredentials outputStreamId w)
    as [config|message] eqn:Hconfig.
  - exists accessBeforeInitialization.
    split; [reflexivity|].
    split; [tauto|].
    split; [cbv zeta; cbn [snd database withDatabase]; apply Hrecorded|].
    split; assumption.
  - exists message.
    split; [reflexivity|].
    split.
    { destruct (loadConfig_message withCredentials w outputStreamId message
                  Hconfig) as [H|[H|[H|H]]]; tauto. }
    split; [cbn [snd database withDatabase]; apply Hrecorded|].
    split; assumption.
Qed.

(** X6. A start request for an id that no row carries throws the not-found
    error and leaves the world exactly as it was: the [UPDATE] of the
    [catch] block matches no row. *)
Theorem start_of_unknown_id_changes_nothing :
  forall (w : World) (outputStreamId : Z),
    (forall os, In os (output_streams (database w)) ->
                os_id os <> outputStreamId) ->
    startOutputStream withCredentials outputStreamId w
    = (Throw "Output stream not found", w).
Proof.
  intros w outputStreamId Habsent.
  unfold startOutputStream, tryCatch, startBody.
  unfold bind at 1; unfold get at 1.
  rewrite (selectOutputStream_absent _ _ Habsent).
  unfold throw, persistError, bind, modify.
  now rewrite (updateOutputStream_absent _ _ _ Habsent), withDatabase_same.
Qed.

(** X7. A start request whose configuration loads stops the job, which
    changes nothing when the job is not tracked, and then throws the
    [ReferenceError] of the launch, which the rows of the job record.  The
    job is untracked afterwards, nothing has been spawned, and the rows keep
    the port they had: the [UPDATE] that would store the port and set the
    status to [running] is not reached. *)
Theorem start_with_loaded_configuration :
  forall (w : World) (outputStreamId : Z) (config : OutputStreamConfig),
    loadConfig withCredentials outputStreamId w = Ok config ->
    let stopped := snd (stopOutputStream outputStreamId w) in
    let outcome := startOutputStream withCredentials outputStreamId w in
    outcome
    = (Throw accessBeforeInitialization,
       withDatabase stopped
         (updateOutputStream (database stopped) outputStreamId
                             (setError accessBeforeInitialization)))
    /\ mapGet (activeStreams (snd outcome)) outputStreamId = None
    /\ spawned (snd outcome) = spawned w
    /\ map os_output_port (output_streams (database (snd outcome)))
       = map os_output_port (output_streams (database w))
    /\ forall os,
         In os (output_streams (database (snd outcome))) ->
         os_status os = running ->
         os_id os <> outputStreamId.
Proof.
  intros w outputStreamId config Hconfig stopped outcome.
  destruct (start_frame withCredentials w outputStreamId)
    as [Hspawned [_ [_ [_ [Hports _]]]]].
  fold outcome in Hspawned, Hports.
  assert (Hrun : outcome
                 = (Throw accessBeforeInitialization,
                    withDatabase stopped
                      (updateOutputStream (database stopped) outputStreamId
                         (setError accessBeforeInitialization)))).
  { unfold outcome; now rewrite start_outcome, Hconfig. }
  split; [exact Hrun|].
  split; [rewrite Hrun; cbn [snd activeStreams withDatabase];
          apply stop_untracks|].
  split; [exact Hspawned|].
  split; [exact Hports|].
  intros os Hin Hstatus Hid.
  rewrite Hrun in Hin; cbn [snd database withDatabase] in Hin.
  destruct (updated_row (database stopped) outputStreamId
              (setError accessBeforeInitialization) os)
    as [a [_ [_ Heq]]]; auto.
  subst os; discriminate.
Qed.

(** X9. Stopping a tracked job sends SIGTERM to its process and to no other,
    untracks the job and no other, spawns nothing, and sets the status of
    the job's rows to [stopped]; the rows keep their port and their address,
    and the rows of other jobs are untouched. *)
Theorem stop_of_tracked_job :
  forall (w : World) (outputStreamId : Z) (process : ChildProcess),
    mapGet (activeStreams w) outputStreamId = Some process ->
    let outcome := stopOutputStream outputStreamId w in
    fst outcome = Ok tt
    /\ signals (snd outcome) = (signals w ++ [(pid process, "SIGTERM")])%list
    /\ mapGet (activeStreams (snd outcome)) outputStreamId = None
    /\ (forall other, other <> outputStreamId ->
                      mapGet (activeStreams (snd outcome)) other
                      = mapGet (activeStreams w) other)
    /\ spawned (snd outcome) = spawned w
    /\ List.length (output_streams (database (snd outcome)))
       = List.length (output_streams (database w))
    /\ forall (i : nat) (os : OutputStreamRow),
         nth_error (output_streams (database w)) i = Some os ->
         exists os',
           nth_error (output_streams (database (snd outcome))) i = Some os'
           /\ os_id os' = os_id os
           /\ os_output_port os' = os_output_port os
           /\ os_output_url os' = os_output_url os
           /\ os_last_error os' = os_last_error os
           /\ os_status os' = if os_id os =? outputStreamId then stopped
                              else os_status os.
Proof.
  intros w outputStreamId process Htracked outcome.
  unfold outcome; rewrite (stop_when_tracked _ _ _ Htracked).
  cbn [fst snd activeStreams spawned signals database].
  split; [reflexivity|].
  split; [reflexivity|].
  split; [apply mapGet_mapDelete_same|].
  split; [intros other Hother; now apply mapGet_mapDelete_other|].
  split; [reflexivity|].
  split; [cbn; apply length_map|].
  intros i os Hnth; cbn.
  rewrite nth_error_map, Hnth; cbn.
  eexists; split; [reflexivity|].
  destruct (os_id os =? outputStreamId); repeat split.
Qed.

(** X10. Stopping twice is stopping once: the second call finds the job
    untracked and changes nothing. *)
Theorem stop_is_idempotent :
  forall (w : World) (outputStreamId : Z),
    stopOutputStream outputStreamId
                     (snd (stopOutputStream outputStreamId w))
    = (Ok tt, snd (stopOutputStream outputStreamId w)).
Proof.
  intros w outputStreamId.
  apply stop_when_untracked, stop_untracks.
Qed.

(** X12. A job without a persisted port cannot be started while a thousand
    processes are tracked: the request throws the no-port error, records it
    on the job, and neither spawns a process nor touches the registry. *)
Theorem start_with_full_registry_fails :
  forall (w : World) (outputStreamId : Z)
         (stream : OutputStreamRow * LayoutTemplateRow)
         (others : list (OutputStreamRow * LayoutTemplateRow))
         (row : StreamMappingRow * InputStreamRow)
         (rows : list (StreamMappingRow * InputStreamRow)),
    selectOutputStream (database w) outputStreamId = stream :: others ->
    selectMappings (database w) outputStreamId = row :: rows ->
    os_output_port (fst stream) = None
    \/ os_output_port (fst stream) = Some 0 ->
    (1000 <=? List.length (activeStreams w))%nat = true ->
    let message := "No available ports for output stream" in
    startOutputStream withCredentials outputStreamId w
    = (Throw message,
       withDatabase w
         (updateOutputStream (database w) outputStreamId (setError message))).
Proof.
  intros w outputStreamId stream others row rows Hstream Hrows Hnull Hfull
         message.
  assert (Hport : resolvePort (fst stream) w = Throw message).
  { assert (Hscan : getNextAvailablePort w = Throw message).
    { rewrite getNextAvailablePort_counts.
      apply Nat.leb_le in Hfull.
      destruct (Nat.ltb_spec (List.length (activeStreams w)) 1000);
        [lia|reflexivity]. }
    unfold resolvePort.
    destruct Hnull as [Hnull|Hnull]; now rewrite Hnull. }
  unfold startOutputStream, tryCatch, startBody.
  unfold bind at 1; unfold get at 1; rewrite Hstream, Hrows.
  unfold bind at 1; unfold lift at 1; rewrite Hport.
  reflexivity.
Qed.

End StartOutcomes.

(** [start_of_unknown_id_changes_nothing] on the studio, which has no
    job 99. *)
Lemma start_of_unknown_id_changes_nothing_witness :
  startOutputStream urlClass 99 (boot studio 8554 [viewer])
  = (Throw "Output stream not found", boot studio 8554 [viewer]).
Proof.
  apply (start_of_unknown_id_changes_nothing urlClass
           (boot studio 8554 [viewer]) 99).
  intros os Hin; cbn in Hin.
  repeat (destruct Hin as [<-|Hin]; [discriminate|]).
  destruct Hin.
Defined.

(** [start_with_loaded_configuration] on job 1 of the studio right after
    start-up. *)
Lemma start_with_loaded_configuration_witness :
  fst (startOutputStream urlClass 1 (boot studio 8554 [viewer]))
  = Throw accessBeforeInitialization
  /\ spawned (snd (startOutputStream urlClass 1 (boot studio 8554 [viewer])))
     = [].
Proof.
  destruct (start_with_loaded_configuration urlClass
              (boot studio 8554 [viewer]) 1
              (configFor 1 (job 1 "a") 8554 [camera 0]))
    as [Hrun [_ [Hspawned _]]].
  - reflexivity.
  - split; [now rewrite Hrun|exact Hspawned].
Defined.

(** [stop_of_tracked_job] on job 1 of the registry filled by hand. *)
Lemma stop_of_tracked_job_witness :
  mapGet (activeStreams (snd (stopOutputStream 1 onStage))) 1 = None.
Proof.
  refine (proj1 (proj2 (proj2
            (stop_of_tracked_job onStage 1
               {| pid := 0; spawnfile := "ffmpeg";
                  spawnargs := ["-f"; "rtsp"; "rtsp://localhost:8554/a"] |}
               _)))).
  reflexivity.
Defined.

(** [start_with_full_registry_fails] on job 1 of the studio with a thousand
    other jobs tracked. *)
Lemma start_with_full_registry_fails_witness :
  fst (startOutputStream urlClass 1 fullHouse)
  = Throw "No available ports for output stream".
Proof.
  rewrite (start_with_full_registry_fails urlClass fullHouse 1
             (job 1 "a",
              {| lt_id := 2; lt_name := "2x2 Grid"; lt_grid_rows := 2;
                 lt_grid_cols := 2 |})
             [] (mapped 1 1 0, feed 1) []).
  - reflexivity.
  - reflexivity.
  - reflexivity.
  - left; reflexivity.
  - vm_compute; reflexivity.
Defined.

(* ================================================================= *)
(** * Shutting down: [stopAllStreams] *)

Lemma mapDelete_absent {V : Type} (m : list (Z * V)) (key : Z) :
  ~ In key (mapKeys m) -> mapDelete m key = m.
Proof.
  unfold mapDelete, mapKeys.
  induction m as [|[k v] rest IH]; cbn; [reflexivity|].
  intro Hnotin.
  destruct (Z.eqb_spec k key) as [->|]; cbn.
  - exfalso; apply Hnotin; now left.
  - rewrite IH; [reflexivity|].
    intro Hin; apply Hnotin; now right.
Qed.

(** The rows after the statuses of a list of jobs are set to [stopped]. *)
Lemma stopped_rows (keys : list Z) (d : Database) :
  output_streams
    (fold_left (fun d k => updateOutputStream d k setStopped) keys d)
  = map (fun os =>
           if existsb (fun k => k =? os_id os) keys then setStopped os
           else os)
        (output_streams d).
Proof.
  revert d; induction keys as [|k rest IH]; intro d; cbn [fold_left existsb].
  - now rewrite map_id.
  - rewrite IH; cbn [output_streams updateOutputStream withOutputStreams].
    rewrite map_map; apply map_ext; intro os.
    rewrite (Z.eqb_sym k (os_id os)).
    destruct (os_id os =? k) eqn:Hk; cbn [orb os_id setStopped].
    + now destruct (existsb (fun k0 => k0 =? os_id os) rest).
    + reflexivity.
Qed.

Lemma stop_each (m : list (Z * ChildProcess)) (w : World) :
  activeStreams w = m ->
  NoDup (mapKeys m) ->
  fold_right (fun id rest => bind (stopOutputStream id) (fun _ => rest))
             (ret tt) (mapKeys m) w
  = (Ok tt,
     {| activeStreams := [];
        basePort := basePort w;
        database :=
          fold_left (fun d k => updateOutputStream d k setStopped)
                    (mapKeys m) (database w);
        spawned := spawned w;
        signals :=
          signals w ++ map (fun e => (pid (snd e), "SIGTERM")) m;
        closed := closed w;
        clients := clients w |}).
Proof.
  revert w; induction m as [|[k p] rest IH]; intros w Hm Hkeys.
  - destruct w; cbn in *; subst.
    now rewrite app_nil_r.
  - cbn [mapKeys map fst fold_right].
    inversion Hkeys as [|k' ks Hnotin Hrest]; subst k' ks.
    assert (Hget : mapGet (activeStreams w) k = Some p).
    { rewrite Hm; cbn; now rewrite Z.eqb_refl. }
    unfold bind at 1.
    rewrite (stop_when_tracked _ _ _ Hget).
    rewrite IH; cbn [activeStreams].
    + cbn [basePort database spawned signals closed clients
           fold_left map snd].
      now rewrite <- app_assoc.
    + rewrite Hm; cbn [mapDelete filter fst].
      rewrite Z.eqb_refl; cbn [negb].
      now apply (mapDelete_absent rest k).
    + exact Hrest.
Qed.

(** X11. [stopAllStreams] empties the registry: every tracked process is sent
    one SIGTERM, in the order of the registry, the rows of the tracked jobs
    become [stopped] and keep their port, and nothing is spawned. *)
Theorem stopAllStreams_stops_everything :
  forall w : World,
    NoDup (getActiveStreams w) ->
    let outcome := stopAllStreams w in
    fst outcome = Ok tt
    /\ activeStreams (snd outcome) = []
    /\ signals (snd outcome)
       = (signals w
          ++ map (fun e => (pid (snd e), "SIGTERM")) (activeStreams w))%list
    /\ spawned (snd outcome) = spawned w
    /\ clients (snd outcome) = clients w
    /\ output_streams (database (snd outcome))
       = map (fun os =>
                if existsb (fun k => k =? os_id os) (getActiveStreams w)
                then setStopped os else os)
             (output_streams (database w)).
Proof.
  intros w Hkeys outcome.
  assert (Hrun : outcome
                 = fold_right
                     (fun id rest => bind (stopOutputStream id) (fun _ => rest))
                     (ret tt) (mapKeys (activeStreams w)) w) by reflexivity.
  rewrite (stop_each (activeStreams w) w eq_refl Hkeys) in Hrun.
  rewrite Hrun.
  cbn [fst snd activeStreams signals spawned clients database].
  repeat split.
  apply stopped_rows.
Qed.

(** [stopAllStreams_stops_everything] on the registry filled by hand, where
    jobs 1 and 2 are tracked. *)
Lemma stopAllStreams_stops_everything_witness :
  activeStreams (snd (stopAllStreams onStage)) = []
  /\ signals (snd (stopAllStreams onStage))
     = [(0%nat, "SIGTERM"); (1%nat, "SIGTERM")].
Proof.
  destruct (stopAllStreams_stops_everything onStage)
    as [_ [Hactive [Hsignals _]]].
  - repeat constructor; cbn; intuition discriminate.
  - split; [exact Hactive|exact Hsignals].
Defined.

(* ================================================================= *)
(** * What the observers receive over a run *)

Lemma stop_keeps_clients (w : World) (outputStreamId : Z) :
  clients (snd (stopOutputStream outputStreamId w)) = clients w.
Proof. apply stop_frame. Qed.

Section ObserversOverRuns.

Variable withCredentials : string -> string -> string -> result string.

Lemma start_keeps_clients (w : World) (outputStreamId : Z) :
  clients (snd (startOutputStream withCredentials outputStreamId w))
  = clients w.
Proof. apply start_frame. Qed.

(** X16. Over any run, an observer stays in its place with its identity and
    its socket state, and its log only grows: an observer whose socket is
    open has received one [stream_status] message per monitoring round, and
    nothing else; start requests, stop requests and process exits send
    nothing to anyone. *)
Theorem observers_hear_only_monitoring_rounds :
  forall (events : list Event) (w : World) (i : nat) (c : Client),
    nth_error (clients w) i = Some c ->
    exists (c' : Client) (delivered : list Json),
      nth_error (clients (run withCredentials events w)) i = Some c'
      /\ userId c' = userId c
      /\ userRole c' = userRole c
      /\ readyState c' = readyState c
      /\ sent c' = (sent c ++ delivered)%list
      /\ List.length delivered = (if isOpen c then ticks events else 0%nat)
      /\ Forall (fun message =>
                   exists data,
                     message = JObject [("type", JString "stream_status");
                                        ("data", data)])
                delivered.
Proof.
  induction events as [|e rest IH]; intros w i c Hnth.
  - exists c, []; cbn [run].
    rewrite app_nil_r.
    repeat split; auto.
    now destruct (isOpen c).
  - cbn [run].
    assert (Hquiet :
              clients (snd (handle withCredentials e w)) = clients w ->
              ticks (e :: rest) = ticks rest ->
              exists c' delivered,
                nth_error
                  (clients (run withCredentials rest
                              (snd (handle withCredentials e w)))) i
                = Some c'
                /\ userId c' = userId c
                /\ userRole c' = userRole c
                /\ readyState c' = readyState c
                /\ sent c' = (sent c ++ delivered)%list
                /\ List.length delivered
                   = (if isOpen c then ticks (e :: rest) else 0%nat)
                /\ Forall (fun message =>
                             exists data,
                               message
                               = JObject [("type", JString "stream_status");
                                          ("data", data)])
                          delivered).
    { intros Hsame Hticks; rewrite Hticks.
      apply IH; now rewrite Hsame. }
    destruct e as [outputStreamId|outputStreamId|pid code|now].
    + apply Hquiet; [apply start_keeps_clients|reflexivity].
    + apply Hquiet; [apply stop_keeps_clients|reflexivity].
    + apply Hquiet; [|reflexivity].
      cbn [handle]; unfold deliverClose, bind, get.
      destruct (nth_error (spawned w) pid); [|reflexivity].
      now destruct (existsb (Nat.eqb pid) (closed w)).
    + clear Hquiet.
      set (message := statusMessage (database w) now).
      set (c1 := if isOpen c then send message c else c).
      assert (Hnth1 :
                nth_error
                  (clients (snd (handle withCredentials (MonitorTick now) w)))
                  i = Some c1).
      { cbn; rewrite nth_error_map, Hnth; reflexivity. }
      destruct (IH _ i c1 Hnth1)
        as [c' [delivered [Hc' [Hid [Hrole [Hstate [Hsent [Hlen Hall]]]]]]]].
      assert (Hopen1 : isOpen c1 = isOpen c).
      { unfold c1; destruct (isOpen c) eqn:Hopen; [|exact Hopen].
        unfold isOpen in *; cbn; exact Hopen. }
      exists c', (if isOpen c then message :: delivered else delivered).
      split; [exact Hc'|].
      unfold c1 in Hid, Hrole, Hstate, Hsent.
      rewrite Hopen1 in Hlen.
      destruct (isOpen c); cbn in *.
      * split; [exact Hid|].
        split; [exact Hrole|].
        split; [exact Hstate|].
        split; [now rewrite Hsent, <- app_assoc|].
        split; [unfold ticks in *; cbn; now rewrite Hlen|].
        constructor; [|exact Hall].
        eexists; reflexivity.
      * repeat split; auto.
Qed.

End ObserversOverRuns.

(** [observers_hear_only_monitoring_rounds] on the studio's observer over a
    run with two monitoring rounds. *)
Lemma observers_hear_only_monitoring_rounds_witness :
  exists (c' : Client) (delivered : list Json),
    nth_error
      (clients
         (run urlClass
              [StartRequest 1; MonitorTick "10:00:00"; StopRequest 1;
               MonitorTick "10:00:05"]
              (boot studio 8554 [viewer]))) 0
    = Some c'
    /\ sent c' = delivered
    /\ List.length delivered = 2%nat.
Proof.
  destruct (observers_hear_only_monitoring_rounds urlClass
              [StartRequest 1; MonitorTick "10:00:00"; StopRequest 1;
               MonitorTick "10:00:05"]
              (boot studio 8554 [viewer]) 0%nat viewer)
    as [c' [delivered [Hc' [_ [_ [_ [Hsent [Hlen _]]]]]]]].
  - reflexivity.
  - exists c', delivered; split; [exact Hc'|].
    split; [exact Hsent|exact Hlen].
Defined.

(* ================================================================= *)
(** * Joining the observers *)

(** X17. A socket whose token verifies for a user that the table lists as
    active joins the observers: it is then the last client, open, under
    that user's id and role, and has been sent the [connected] message and
    nothing else.  No other socket joins: without a token the connection is
    closed with "Authentication required", with a token that does not
    verify with "Authentication failed", and for a user that is unknown or
    not active with "Invalid user", each time with code 1008 and with the
    clients, and the rest of the world, as they were. *)
Theorem only_active_users_join :
  forall (verify : string -> result Z) (users : list UserRow)
         (token : option string) (w : World),
    let outcome := handleConnection verify users token w in
    (forall (t : string) (decoded : Z) (user : UserRow)
            (others : list UserRow),
        token = Some t -> t <> EmptyString ->
        verify t = Ok decoded ->
        filter (fun u => u_id u =? decoded) users = user :: others ->
        u_is_active user = Some true ->
        outcome
        = (Ok Joined,
           withClients w
             (clients w
              ++ [{| userId := u_id user; userRole := u_role user;
                     readyState := OPEN; sent := [connectedMessage] |}])))
    /\ (fst outcome = Ok Joined ->
        exists (t : string) (user : UserRow),
          token = Some t /\ t <> EmptyString
          /\ verify t = Ok (u_id user)
          /\ In user users
          /\ u_is_active user = Some true)
    /\ (token = None \/ token = Some EmptyString ->
        outcome = (Ok (Refused 1008 "Authentication required"), w))
    /\ (forall (t message : string),
          token = Some t -> t <> EmptyString -> verify t = Throw message ->
          outcome = (Ok (Refused 1008 "Authentication failed"), w))
    /\ (forall (t : string) (decoded : Z),
          token = Some t -> t <> EmptyString -> verify t = Ok decoded ->
          (filter (fun u => u_id u =? decoded) users = []
           \/ exists user others,
                filter (fun u => u_id u =? decoded) users = user :: others
                /\ u_is_active user <> Some true) ->
          outcome = (Ok (Refused 1008 "Invalid user"), w)).
Proof.
  intros verify users token w outcome.
  assert (Hfalsy : forall t, t <> EmptyString -> falsy (Some t) = false).
  { intros t Ht; cbn; now apply String.eqb_neq. }
  split; [|split; [|split; [|split]]].
  - intros t decoded user others -> Ht Hverify Hrows Hactive.
    unfold outcome, handleConnection.
    rewrite (Hfalsy t Ht); cbn [text].
    now rewrite Hverify, Hrows, Hactive.
  - unfold outcome, handleConnection.
    destruct (falsy token) eqn:Hempty; [discriminate|].
    destruct token as [t|]; [|discriminate].
    cbn [text]; cbn in Hempty.
    destruct (verify t) as [decoded|message] eqn:Hverify; [|discriminate].
    destruct (filter (fun u => u_id u =? decoded) users) as [|user rest]
      eqn:Hrows; [discriminate|].
    assert (Hin : In user (filter (fun u => u_id u =? decoded) users))
      by (rewrite Hrows; now left).
    apply filter_In in Hin; destruct Hin as [Hin Hid].
    apply Z.eqb_eq in Hid.
    destruct (u_is_active user) as [[|]|] eqn:Hactive;
      [|discriminate|discriminate].
    intros _; exists t, user.
    split; [reflexivity|].
    split; [intros ->; discriminate|].
    split; [now rewrite Hid|].
    split; [exact Hin|exact Hactive].
  - intros [->| ->]; reflexivity.
  - intros t message -> Ht Hverify.
    unfold outcome, handleConnection.
    rewrite (Hfalsy t Ht); cbn [text].
    now rewrite Hverify.
  - intros t decoded -> Ht Hverify Hrows.
    unfold outcome, handleConnection.
    rewrite (Hfalsy t Ht); cbn [text].
    rewrite Hverify.
    destruct Hrows as [->|[user [others [-> Hactive]]]]; [reflexivity|].
    destruct (u_is_active user) as [[|]|]; [congruence|reflexivity|reflexivity].
Qed.

(** [only_active_users_join] on a table with one active viewer, whose token
    is the only one that verifies. *)
Lemma only_active_users_join_witness :
  handleConnection
    (fun t => if String.eqb t "signed" then Ok 7 else Throw "jwt malformed")
    [{| u_id := 7; u_role := "viewer"; u_is_active := Some true |}]
    (Some "signed") (boot studio 8554 [])
  = (Ok Joined,
     boot studio 8554
       [{| userId := 7; userRole := "viewer"; readyState := OPEN;
           sent := [connectedMessage] |}]).
Proof.
  refine (proj1 (only_active_users_join
                   (fun t => if String.eqb t "signed" then Ok 7
                             else Throw "jwt malformed")
                   [{| u_id := 7; u_role := "viewer";
                       u_is_active := Some true |}]
                   (Some "signed") (boot studio 8554 []))
                "signed" 7
                {| u_id := 7; u_role := "viewer"; u_is_active := Some true |}
                [] _ _ _ _ _).
  - reflexivity.
  - discriminate.
  - reflexivity.
  - reflexivity.
  - reflexivity.
Defined.

(* ================================================================= *)
(** * Deleting a stream *)

Lemma stopped_row_exists (d : Database) (outputStreamId : Z) :
  existsb (fun os => os_id os =? outputStreamId)
          (output_streams (updateOutputStream d outputStreamId setStopped))
  = existsb (fun os => os_id os =? outputStreamId) (output_streams d).
Proof.
  cbn; induction (output_streams d) as [|os rest IH]; cbn; [reflexivity|].
  rewrite IH; f_equal.
  destruct (os_id os =? outputStreamId) eqn:Hid; cbn; now rewrite ?Hid.
Qed.

(** X18. After the delete handler has run for an id, the job is untracked,
    the table has no row and no mapping with that id, and the answer tells
    whether there was a row; the process the job was tracked with has been
    sent SIGTERM.  A port that only the deleted job held is free for any
    other job, unlike after a stop. *)
Theorem delete_removes_the_job :
  forall (w : World) (outputStreamId : Z),
    let outcome := deleteOutputStream outputStreamId w in
    fst outcome
    = Ok (existsb (fun os => os_id os =? outputStreamId)
                  (output_streams (database w)))
    /\ mapGet (activeStreams (snd outcome)) outputStreamId = None
    /\ (forall os, In os (output_streams (database (snd outcome))) ->
                   os_id os <> outputStreamId)
    /\ (forall sm, In sm (stream_mappings (database (snd outcome))) ->
                   sm_output_stream_id sm <> outputStreamId)
    /\ (forall process,
          mapGet (activeStreams w) outputStreamId = Some process ->
          signals (snd outcome)
          = (signals w ++ [(pid process, "SIGTERM")])%list)
    /\ (forall (os : OutputStreamRow) (p other : Z),
          PortsUnique (database w) ->
          In os (output_streams (database w)) ->
          os_id os = outputStreamId ->
          os_output_port os = Some p ->
          portTaken (database (snd outcome)) other p = false).
Proof.
  intros w outputStreamId outcome.
  assert (Hrun :
            outcome
            = (Ok (existsb (fun os => os_id os =? outputStreamId)
                     (output_streams
                        (database (snd (stopOutputStream outputStreamId w))))),
               withDatabase (snd (stopOutputStream outputStreamId w))
                 (deleteOutputStreamRow
                    (database (snd (stopOutputStream outputStreamId w)))
                    outputStreamId))).
  { unfold outcome, deleteOutputStream.
    unfold bind at 1.
    destruct (stopOutputStream outputStreamId w) as [[[]|m] w1] eqn:Hstop.
    - reflexivity.
    - destruct (mapGet (activeStreams w) outputStreamId) as [p|] eqn:Hget.
      + rewrite (stop_when_tracked _ _ _ Hget) in Hstop; discriminate.
      + rewrite (stop_when_untracked _ _ Hget) in Hstop; discriminate. }
  assert (Hrows :
            forall os,
              In os (output_streams
                       (database (snd (stopOutputStream outputStreamId w)))) ->
              exists os0, In os0 (output_streams (database w))
                          /\ os_id os = os_id os0
                          /\ os_output_port os = os_output_port os0).
  { intros os Hin.
    destruct (mapGet (activeStreams w) outputStreamId) as [p|] eqn:Hget.
    - rewrite (stop_when_tracked _ _ _ Hget) in Hin; cbn in Hin.
      apply in_map_iff in Hin; destruct Hin as [os0 [<- Hin]].
      exists os0; split; [exact Hin|].
      now destruct (os_id os0 =? outputStreamId).
    - rewrite (stop_when_untracked _ _ Hget) in Hin.
      now exists os. }
  rewrite Hrun; cbn [fst snd activeStreams signals database withDatabase].
  split.
  { f_equal.
    destruct (mapGet (activeStreams w) outputStreamId) as [p|] eqn:Hget.
    - rewrite (stop_when_tracked _ _ _ Hget); cbn.
      apply stopped_row_exists.
    - now rewrite (stop_when_untracked _ _ Hget). }
  split; [apply stop_untracks|].
  split.
  { intros os Hin; cbn in Hin.
    apply filter_In in Hin; destruct Hin as [_ Hkeep].
    now destruct (Z.eqb_spec (os_id os) outputStreamId). }
  split.
  { intros sm Hin; cbn in Hin.
    apply filter_In in Hin; destruct Hin as [_ Hkeep].
    now destruct (Z.eqb_spec (sm_output_stream_id sm) outputStreamId). }
  split.
  { intros process Hget.
    now rewrite (stop_when_tracked _ _ _ Hget). }
  intros os p other Hunique Hin Hid Hport.
  unfold portTaken.
  apply andb_false_iff; right.
  apply not_true_is_false; intro Hex.
  apply existsb_exists in Hex; destruct Hex as [r [Hr Hheld]].
  cbn in Hr; apply filter_In in Hr; destruct Hr as [Hr Hkeep].
  destruct (Hrows r Hr) as [r0 [Hr0 [Hid0 Hport0]]].
  apply andb_true_iff in Hheld; destruct Hheld as [_ Hheld].
  rewrite Hport0 in Hheld.
  destruct (os_output_port r0) as [held|] eqn:Hheld0; [|discriminate].
  apply Z.eqb_eq in Hheld; subst held.
  assert (Hsame : os_id r0 = os_id os) by exact (Hunique r0 os p Hr0 Hin Hheld0 Hport).
  rewrite Hid0, Hsame, Hid, Z.eqb_refl in Hkeep; discriminate.
Qed.

(* ================================================================= *)
(** * From creation to the first start *)

Lemma filter_nonempty {A : Type} (p : A -> bool) (xs : list A) :
  existsb p xs = true -> exists x rest, filter p xs = x :: rest.
Proof.
  induction xs as [|a tail IH]; cbn; [discriminate|].
  destruct (p a); [intros _; eexists; eexists; reflexivity|exact IH].
Qed.

Lemma selectMappings_absent (d : Database) (outputStreamId : Z) :
  (forall sm, In sm (stream_mappings d) ->
              sm_output_stream_id sm <> outputStreamId) ->
  selectMappings d outputStreamId = [].
Proof.
  intro Habsent; unfold selectMappings.
  replace (flat_map _ (stream_mappings d))
    with (@nil (StreamMappingRow * InputStreamRow)); [reflexivity|].
  symmetry.
  induction (stream_mappings d) as [|sm rest IH]; cbn; [reflexivity|].
  destruct (Z.eqb_spec (sm_output_stream_id sm) outputStreamId) as [Heq|].
  - destruct (Habsent sm); [now left|exact Heq].
  - apply IH; intros sm' Hin; apply Habsent; now right.
Qed.

Section FirstStart.

Variable withCredentials : string -> string -> string -> result string.

(** X19. A stream that was just created from an accepted body, under an id
    that no row and no mapping carried, is found by a start request, and the
    request fails for want of a mapping: it throws the no-mappings error,
    launches nothing and tracks nothing. *)
Theorem created_stream_needs_a_mapping :
  forall (w : World) (newId : Z) (body : CreateOutputStreamBody)
         (d' : Database),
    validateCreateOutputStream body = [] ->
    insertOutputStream (database w) newId body = Some d' ->
    (forall os, In os (output_streams (database w)) -> os_id os <> newId) ->
    (forall sm, In sm (stream_mappings (database w)) ->
                sm_output_stream_id sm <> newId) ->
    let outcome := startOutputStream withCredentials newId (withDatabase w d') in
    fst outcome = Throw "No input streams mapped to this output"
    /\ spawned (snd outcome) = spawned w
    /\ activeStreams (snd outcome) = activeStreams w
    /\ signals (snd outcome) = signals w.
Proof.
  intros w newId body d' Hvalid Hinsert Hfresh Hunmapped outcome.
  unfold validateCreateOutputStream in Hvalid.
  apply app_eq_nil in Hvalid; destruct Hvalid as [_ Hvalid].
  apply app_eq_nil in Hvalid; destruct Hvalid as [Htemplate _].
  unfold insertOutputStream in Hinsert.
  destruct (createdOutputStream newId body) as [row|] eqn:Hrow;
    [|discriminate].
  assert (Hfields : os_id row = newId
                    /\ os_layout_template_id row = body_layoutTemplateId body).
  { unfold createdOutputStream in Hrow.
    destruct (body_name body) as [label|]; [|discriminate].
    destruct (varchar 255 label); [|discriminate].
    match type of Hrow with
    | match varchar 50 ?text with _ => _ end = _ =>
        destruct (varchar 50 text); [|discriminate]
    end.
    match type of Hrow with
    | match ?stored with _ => _ end = _ =>
        destruct stored; [|discriminate]
    end.
    match type of Hrow with
    | (if ?integers then _ else _) = _ => destruct integers; [|discriminate]
    end.
    injection Hrow as <-; now split. }
  destruct Hfields as [Hid Hlayout].
  destruct (body_layoutTemplateId body) as [template|]; [|discriminate].
  rewrite Hlayout in Hinsert.
  destruct (existsb (fun lt => lt_id lt =? template)
                    (layout_templates (database w))) eqn:Hknown;
    [|discriminate].
  injection Hinsert as <-.
  assert (Hstream :
            exists stream others,
              selectOutputStream
                (withOutputStreams (database w)
                   (output_streams (database w) ++ [row])) newId
              = stream :: others).
  { unfold selectOutputStream; cbn [output_streams layout_templates
                                    withOutputStreams].
    rewrite flat_map_app.
    replace (flat_map _ (output_streams (database w)))
      with (@nil (OutputStreamRow * LayoutTemplateRow)).
    - cbn; rewrite Hid, Z.eqb_refl, Hlayout, app_nil_r.
      destruct (filter_nonempty _ _ Hknown) as [lt [rest Hlt]].
      rewrite Hlt; eexists; eexists; reflexivity.
    - symmetry.
      induction (output_streams (database w)) as [|os rest IH]; cbn;
        [reflexivity|].
      destruct (Z.eqb_spec (os_id os) newId) as [Heq|].
      + destruct (Hfresh os); [now left|exact Heq].
      + apply IH; intros os' Hin; apply Hfresh; now right. }
  destruct Hstream as [stream [others Hstream]].
  assert (Hrows :
            selectMappings
              (withOutputStreams (database w)
                 (output_streams (database w) ++ [row])) newId = []).
  { apply selectMappings_absent; exact Hunmapped. }
  assert (Hrun :
            outcome
            = (Throw "No input streams mapped to this output",
               withDatabase
                 (withDatabase w
                    (withOutputStreams (database w)
                       (output_streams (database w) ++ [row])))
                 (updateOutputStream
                    (withOutputStreams (database w)
                       (output_streams (database w) ++ [row]))
                    newId
                    (setError "No input streams mapped to this output")))).
  { unfold outcome, startOutputStream, tryCatch, startBody.
    unfold bind at 1; unfold get at 1.
    cbn [database withDatabase].
    rewrite Hstream, Hrows.
    reflexivity. }
  rewrite Hrun; repeat split.
Qed.

End FirstStart.

(** [created_stream_needs_a_mapping] on the studio: a fifth stream is
    created on the 2x2 template and started at once. *)
Lemma created_stream_needs_a_mapping_witness :
  exists d' : Database,
    insertOutputStream studio 5
      {| body_name := Some "lobby"; body_layoutTemplateId := Some 2;
         body_resolution := Some "1280x720"; body_framerate := None;
         body_bitrate := None |} = Some d'
    /\ fst (startOutputStream urlClass 5
              (withDatabase (boot studio 8554 [viewer]) d'))
       = Throw "No input streams mapped to this output".
Proof.
  eexists; split; [reflexivity|].
  refine (proj1 (created_stream_needs_a_mapping urlClass
                   (boot studio 8554 [viewer]) 5
                   {| body_name := Some "lobby";
                      body_layoutTemplateId := Some 2;
                      body_resolution := Some "1280x720";
                      body_framerate := None; body_bitrate := None |}
                   _ _ _ _ _)).
  - reflexivity.
  - reflexivity.
  - intros os Hin; cbn in Hin.
    repeat (destruct Hin as [<-|Hin]; [discriminate|]).
    destruct Hin.
  - intros sm Hin; cbn in Hin.
    repeat (destruct Hin as [<-|Hin]; [discriminate|]).
    destruct Hin.
Defined.

